(** * ADS1100 driver (ads1100.py): shallow embedding and verified properties

    The driver is a single Python class talking to an I2C analog-to-digital
    converter.  Python integers are modelled as [Z], the cells of the
    [bytearray] scratch buffer as [Byte.byte], Python floats as IEEE 754
    binary floats ([spec_float] of the core library, rounded to nearest
    even) in a format chosen by the interpreter, and the methods as
    computations in a state-and-exception monad over the instance
    attributes, the class-level buffer and the log of bus transfers.

    What lies outside ads1100.py is modelled as follows.
    - [machine.I2C]: a transfer completes or raises [OSError], as the
      caller of a method says for each transfer it makes; the answer of
      the device to a read is an argument of the access that reads.  The
      methods without bus argument are the methods on a bus that completes
      every transfer.
    - [int.to_bytes(1, 'big')]: one unsigned byte, [OverflowError] when the
      integer does not fit.
    - [float(int)] rounds to nearest and gives an infinity out of range,
      as MicroPython does; [int / int] converts both operands and divides,
      which for operands that are exact floats (all that occur here) is
      also the correctly rounded quotient. *)

From Stdlib Require Import ZArith List String Ascii Bool Lia QArith.
From Stdlib.Strings Require Import Byte.
From Stdlib Require Import DecimalString.
From Stdlib Require Import Floats.SpecFloat.
Import ListNotations.

Local Open Scope Z_scope.

(** ** The part of the Python runtime the driver relies on *)

Module Py.

(** Exceptions the modelled code can raise. *)
Inductive exn : Type :=
| ValueError (msg : string)
| OverflowError
| TypeError
| ZeroDivisionError
| OSError.

Inductive result (A : Type) : Type :=
| Ok (a : A)
| Raise (e : exn).
Arguments Ok {A} a.
Arguments Raise {A} e.

(** Values that flow through the arithmetic of [voltage]. *)
Inductive pyval : Type :=
| PyNone
| PyInt (z : Z)
| PyFloat (f : spec_float).

(** The float format of the interpreter: 53/1024 for double precision
    builds, 24/128 for single precision builds. *)
Record float_format : Type := { prec : Z; emax : Z }.
Definition binary64 : float_format := {| prec := 53; emax := 1024 |}.
Definition binary32 : float_format := {| prec := 24; emax := 128 |}.

(** [int.to_bytes(length, 'big')]: unsigned, [OverflowError] when the
    integer needs more than [length] bytes, and when it is negative (the
    default [signed=False]; no result below rests on the negative case). *)
Definition byte_of_Z (z : Z) : byte :=
  match Byte.of_N (Z.to_N (z mod 256)) with
  | Some b => b
  | None => x00
  end.

Fixpoint big_endian (length : nat) (z : Z) : list byte :=
  match length with
  | O => []
  | S k => byte_of_Z (z / 256 ^ Z.of_nat k) :: big_endian k z
  end.

Definition to_bytes (z : Z) (length : nat) : result (list byte) :=
  if (z <? 0) || (256 ^ Z.of_nat length <=? z)
  then Raise OverflowError
  else Ok (big_endian length z).

(** Reading a cell of a [bytearray] gives an int in 0..255. *)
Definition int_of_byte (b : byte) : Z := Z.of_N (Byte.to_N b).

(** [x in t] and [t.index(x)] on a tuple of ints. *)
Definition tuple_contains (x : Z) (t : list Z) : bool :=
  existsb (Z.eqb x) t.

Fixpoint tuple_index (x : Z) (t : list Z) : result Z :=
  match t with
  | [] => Raise (ValueError "tuple.index(x): x not in tuple")
  | y :: t' =>
      if y =? x then Ok 0
      else match tuple_index x t' with
           | Ok i => Ok (i + 1)
           | Raise e => Raise e
           end
  end.

(** [d.get(k)] on a dict with int keys and int values: [None] when the
    key is missing. *)
Fixpoint dict_get (d : list (Z * Z)) (k : Z) : pyval :=
  match d with
  | [] => PyNone
  | (k', v) :: d' => if k' =? k then PyInt v else dict_get d' k
  end.

(** [repr] of an int and of a tuple of ints, and ["...{0}...".format(a)]
    with [a] already rendered. *)
Definition repr_int (z : Z) : string :=
  NilZero.string_of_int (Z.to_int z).

Fixpoint join (sep : string) (l : list string) : string :=
  match l with
  | [] => EmptyString
  | [s] => s
  | s :: l' => String.append s (String.append sep (join sep l'))
  end.

Definition repr_tuple (t : list Z) : string :=
  match t with
  | [x] => String.append "(" (String.append (repr_int x) ",)")
  | _ => String.append "(" (String.append (join ", " (map repr_int t)) ")")
  end.

Fixpoint format0 (template arg : string) : string :=
  match template with
  | String "{" (String "0" (String "}" rest)) =>
      String.append arg (format0 rest arg)
  | String c rest => String c (format0 rest arg)
  | EmptyString => EmptyString
  end.

(** Substring test, used to say what a message mentions. *)
Fixpoint contains (needle hay : string) : bool :=
  String.prefix needle hay
  || match hay with
     | EmptyString => false
     | String _ hay' => contains needle hay'
     end.

Section Arith.
Variable fmt : float_format.

(** [float(z)]: the nearest float, infinite when out of range. *)
Definition float_of_int (z : Z) : spec_float :=
  binary_normalize (prec fmt) (emax fmt) z 0 false.

Definition fmul : spec_float -> spec_float -> spec_float :=
  SFmul (prec fmt) (emax fmt).
Definition fdiv : spec_float -> spec_float -> spec_float :=
  SFdiv (prec fmt) (emax fmt).

Definition is_zero (f : spec_float) : bool :=
  match f with
  | S754_zero _ => true
  | _ => false
  end.

(** [a * b] on None, ints and floats. *)
Definition mul (a b : pyval) : result pyval :=
  match a, b with
  | PyInt x, PyInt y => Ok (PyInt (x * y))
  | PyInt x, PyFloat g => Ok (PyFloat (fmul (float_of_int x) g))
  | PyFloat f, PyInt y => Ok (PyFloat (fmul f (float_of_int y)))
  | PyFloat f, PyFloat g => Ok (PyFloat (fmul f g))
  | _, _ => Raise TypeError
  end.

(** [a / b]: true division, always a float; an int operand is
    converted first. *)
Definition as_float (a : pyval) : option spec_float :=
  match a with
  | PyNone => None
  | PyInt x => Some (float_of_int x)
  | PyFloat f => Some f
  end.

Definition is_zero_val (a : pyval) : bool :=
  match a with
  | PyNone => false
  | PyInt x => x =? 0
  | PyFloat f => is_zero f
  end.

Definition truediv (a b : pyval) : result pyval :=
  match as_float a, as_float b with
  | Some f, Some g =>
      if is_zero_val b then Raise ZeroDivisionError
      else Ok (PyFloat (fdiv f g))
  | _, _ => Raise TypeError
  end.
End Arith.

(** Numeric order against zero, as [v < 0] decides it. *)
Definition is_negative (v : pyval) : bool :=
  match v with
  | PyNone => false
  | PyInt z => z <? 0
  | PyFloat f => SFltb f (S754_zero false)
  end.

Definition is_positive (v : pyval) : bool :=
  match v with
  | PyNone => false
  | PyInt z => 0 <? z
  | PyFloat f => SFltb (S754_zero false) f
  end.

(** [a == b] on numbers: an int and a float are equal when the float is
    the int's conversion and that conversion is exact; here only needed
    against zero. *)
Definition equals_zero (v : pyval) : bool := is_zero_val v.

End Py.
Import Py.

(** ** Module-level constants of ads1100.py *)

Definition _ADS1100_DEFAULT_ADDRESS : Z := 0x48.

Definition _ST_BSY_BIT : Z := 0x80.
Definition _SC_BIT : Z := 0x10.
Definition _DR_BIT : Z := 0x0C.
Definition _PGA_BIT : Z := 0x03.

Definition _DATA_RATE : list Z := [128; 32; 16; 8].

Definition _GAINS : list Z := [1; 2; 4; 8].

Definition _MIN_CODE : list (Z * Z) :=
  [(128, -2048); (32, -8192); (16, -16384); (8, -32768)].


(** ** The world the driver runs in *)

(** The three cells of a [bytearray(3)], and equally the three bytes the
    device answers to a read: sample MSB, sample LSB, status. *)
Record frame : Type := { cell0 : byte; cell1 : byte; cell2 : byte }.

(** What the driver does to the outside, in the order it happens. *)
Inductive event : Type :=
| Writeto (addr : Z) (data : list byte)
| Sleep (seconds : Q)
| Readfrom_into (addr : Z) (nbytes : nat).

(** Instance attributes ([self._i2c] is the bus, whose transfers are logged
    in [bus] below). *)
Record ADS1100 : Type := {
  _addr : Z;
  _reference_voltage : pyval;
  _pressure_ratio : pyval;
  _config : Z;
  _mode : Z;
  _rate : Z;
  _gain : Z
}.

(** The class attribute [_BUFFER] is one object shared by every use of the
    class, so it lives beside the instance and not in it. *)
Record world : Type := {
  _BUFFER : frame;
  bus : list event
}.

Definition state : Type := ADS1100 * world.

(** Computations: a result or an exception, and the state as the code
    left it in either case (an exception does not undo assignments). *)
Definition M (A : Type) : Type := state -> result A * state.

Definition ret {A} (a : A) : M A := fun st => (Ok a, st).

Definition bind {A B} (m : M A) (k : A -> M B) : M B :=
  fun st =>
    match m st with
    | (Ok a, st') => k a st'
    | (Raise e, st') => (Raise e, st')
    end.

Definition raise {A} (e : exn) : M A := fun st => (Raise e, st).

Definition lift {A} (r : result A) : M A := fun st => (r, st).

Notation "x <- m ;; k" := (bind m (fun x => k))
  (at level 61, m at next level, right associativity).
Notation "m ;; k" := (bind m (fun _ => k))
  (at level 61, right associativity).

Definition attr {A} (f : ADS1100 -> A) : M A := fun st => (Ok (f (fst st)), st).

(** Assignment to one attribute leaves the others as they are. *)
Definition with_config (s : ADS1100) (c : Z) : ADS1100 :=
  {| _addr := _addr s; _reference_voltage := _reference_voltage s;
     _pressure_ratio := _pressure_ratio s; _config := c;
     _mode := _mode s; _rate := _rate s; _gain := _gain s |}.

Definition with_mode (s : ADS1100) (m : Z) : ADS1100 :=
  {| _addr := _addr s; _reference_voltage := _reference_voltage s;
     _pressure_ratio := _pressure_ratio s; _config := _config s;
     _mode := m; _rate := _rate s; _gain := _gain s |}.

Definition with_rate (s : ADS1100) (r : Z) : ADS1100 :=
  {| _addr := _addr s; _reference_voltage := _reference_voltage s;
     _pressure_ratio := _pressure_ratio s; _config := _config s;
     _mode := _mode s; _rate := r; _gain := _gain s |}.

Definition with_gain (s : ADS1100) (g : Z) : ADS1100 :=
  {| _addr := _addr s; _reference_voltage := _reference_voltage s;
     _pressure_ratio := _pressure_ratio s; _config := _config s;
     _mode := _mode s; _rate := _rate s; _gain := g |}.

Definition assign (upd : ADS1100 -> ADS1100) : M unit :=
  fun st => (Ok tt, (upd (fst st), snd st)).

Definition set_config (c : Z) : M unit := assign (fun s => with_config s c).
Definition set_mode_attr (m : Z) : M unit := assign (fun s => with_mode s m).
Definition set_rate_attr (r : Z) : M unit := assign (fun s => with_rate s r).
Definition set_gain_attr (g : Z) : M unit := assign (fun s => with_gain s g).

Definition buffer : M frame := fun st => (Ok (_BUFFER (snd st)), st).

Definition log (w : world) (evs : list event) : world :=
  {| _BUFFER := _BUFFER w; bus := bus w ++ evs |}.

Definition emit (ev : event) : M unit :=
  fun st => (Ok tt, (fst st, log (snd st) [ev])).

(** What the bus does with one write of the driver: the transfer completes,
    or [machine.I2C] raises [OSError] (no acknowledge, bus error). *)
Inductive transfer : Type := Acked | Nacked.

(** What a read brings: the three bytes of the device, or an [OSError]
    with whatever the failed transfer left in the buffer. *)
Inductive answer : Type :=
| Answers (resp : frame)
| Fails (leftover : frame).

(** [I2C.writeto(addr, data)], with what the bus does with it. *)
Definition i2c_writeto (t : transfer) (addr : Z) (data : list byte)
  : M unit :=
  match t with
  | Acked => emit (Writeto addr data)
  | Nacked => raise OSError
  end.

(** [time.sleep(seconds)]. *)
Definition time_sleep (seconds : Q) : M unit := emit (Sleep seconds).

(** [I2C.readfrom_into(addr, buf)] with [buf] the shared [_BUFFER]: the
    device's answer overwrites the three cells; a failed read raises and
    leaves in them what it leaves. *)
Definition i2c_readfrom_into_BUFFER (a : answer) (addr : Z) : M unit :=
  fun st =>
    match a with
    | Answers resp =>
        (Ok tt, (fst st, {| _BUFFER := resp;
                            bus := bus (snd st) ++ [Readfrom_into addr 3] |}))
    | Fails leftover =>
        (Raise OSError, (fst st, {| _BUFFER := leftover;
                                    bus := bus (snd st) |}))
    end.

(** ** class ADS1100 *)

Definition CONTINUOUS : Z := 0.
Definition SINGLE : Z := 1.

Definition __init__ (address : Z) (reference_voltage pressure_ratio : pyval)
  : ADS1100 :=
  {| _addr := address;
     _reference_voltage := reference_voltage;
     _pressure_ratio := pressure_ratio;
     _config := 0x8C;
     _mode := CONTINUOUS;
     _rate := 8;
     _gain := 1 |}.

(** The defaults of the constructor's keyword arguments; the float 3.3 is
    the quotient 33/10 rounded once, which is how a decimal literal is read. *)
Definition default_reference_voltage (fmt : float_format) : pyval :=
  PyFloat (fdiv fmt (float_of_int fmt 33) (float_of_int fmt 10)).
Definition default_pressure_ratio : pyval := PyInt 2.

(** A driver fresh from the constructor, with an idle bus. *)
Definition fresh (fmt : float_format) : state :=
  (__init__ _ADS1100_DEFAULT_ADDRESS (default_reference_voltage fmt)
            default_pressure_ratio,
   {| _BUFFER := {| cell0 := x00; cell1 := x00; cell2 := x00 |}; bus := [] |}).

(** The methods take what the bus does with each of their transfers: [t]
    for the write of the config, [a] for the read. *)
Definition _read (a : answer) : M unit :=
  addr <- attr _addr ;;
  i2c_readfrom_into_BUFFER a addr.

(** [self._i2c.writeto(self._addr, self._config.to_bytes(1, 'big'))] *)
Definition write_config_on (t : transfer) : M unit :=
  addr <- attr _addr ;;
  cfg <- attr _config ;;
  data <- lift (to_bytes cfg 1) ;;
  i2c_writeto t addr data.

(** The [value] property. *)
Definition value_on (t : transfer) (a : answer) : M (option Z) :=
  write_config_on t ;;
  time_sleep (1 # 10) ;;
  _read a ;;
  buf <- buffer ;;
  set_config (int_of_byte (cell2 buf)) ;;
  cfg <- attr _config ;;
  if (Z.land cfg _SC_BIT =? 0)
     || ((Z.land cfg _SC_BIT >? 0) && (Z.land cfg _ST_BSY_BIT =? 0))
  then
    buf <- buffer ;;
    ret (Some (Z.land
                 (Z.lor (Z.shiftl (int_of_byte (cell0 buf)) 8)
                        (int_of_byte (cell1 buf)))
                 0xFFFF))
  else ret None.

(** The [voltage] property. *)
Definition voltage_on (fmt : float_format) (t : transfer) (a : answer)
  : M pyval :=
  let voltage := PyInt 0 in
  v <- value_on t a ;;
  match v with
  | Some value =>
      rate <- attr _rate ;;
      gain <- attr _gain ;;
      reference_voltage <- attr _reference_voltage ;;
      pressure_ratio <- attr _pressure_ratio ;;
      d1 <- lift (mul fmt (PyInt (-1)) (dict_get _MIN_CODE rate)) ;;
      d <- lift (mul fmt d1 (PyInt gain)) ;;
      q <- lift (truediv fmt (PyInt value) d) ;;
      x <- lift (mul fmt q reference_voltage) ;;
      voltage <- lift (mul fmt x pressure_ratio) ;;
      ret voltage
  | None => ret voltage
  end.

(** The [mode], [rate] and [gain] properties: getter and setter. *)
Definition mode : M Z := attr _mode.

Definition mode_setter_on (t : transfer) (mode : Z) : M unit :=
  set_mode_attr mode ;;
  cfg <- attr _config ;;
  set_config (Z.lor (Z.land cfg (Z.lnot _SC_BIT)) (Z.shiftl mode 4)) ;;
  write_config_on t.

Definition rate : M Z := attr _rate.

Definition rate_setter_on (t : transfer) (data_rate : Z) : M unit :=
  if negb (tuple_contains data_rate _DATA_RATE)
  then raise (ValueError
                (format0 "Rate should be one of the following values: {0}"
                         (repr_tuple _DATA_RATE)))
  else
    set_rate_attr data_rate ;;
    cfg <- attr _config ;;
    i <- lift (tuple_index data_rate _DATA_RATE) ;;
    set_config (Z.lor (Z.land cfg (Z.lnot _DR_BIT)) (Z.shiftl i 2)) ;;
    write_config_on t.

Definition gain : M Z := attr _gain.

Definition gain_setter_on (t : transfer) (gain : Z) : M unit :=
  if negb (tuple_contains gain _GAINS)
  then raise (ValueError
                (format0 "Gain should be one of the following values: {0}"
                         (repr_tuple _GAINS)))
  else
    set_gain_attr gain ;;
    cfg <- attr _config ;;
    i <- lift (tuple_index gain _GAINS) ;;
    set_config (Z.lor (Z.land cfg (Z.lnot _PGA_BIT)) i) ;;
    write_config_on t.

(** The methods on a bus that completes every transfer; [resp] is what the
    device answers to the read. *)
Definition write_config : M unit := write_config_on Acked.

Definition value (resp : frame) : M (option Z) :=
  value_on Acked (Answers resp).

Definition voltage (fmt : float_format) (resp : frame) : M pyval :=
  voltage_on fmt Acked (Answers resp).

Definition mode_setter (mode : Z) : M unit := mode_setter_on Acked mode.

Definition rate_setter (data_rate : Z) : M unit :=
  rate_setter_on Acked data_rate.

Definition gain_setter (gain : Z) : M unit := gain_setter_on Acked gain.

(** ** Using the driver: a caller's sequence of property accesses *)

(** One access from the caller; a read carries the device's answer. *)
Inductive op : Type :=
| GetValue (resp : frame)
| GetVoltage (resp : frame)
| GetMode
| SetMode (m : Z)
| GetRate
| SetRate (r : Z)
| GetGain
| SetGain (g : Z).

Definition perform (fmt : float_format) (o : op) : M pyval :=
  match o with
  | GetValue resp =>
      v <- value resp ;;
      ret (match v with Some z => PyInt z | None => PyNone end)
  | GetVoltage resp => voltage fmt resp
  | GetMode => m <- mode ;; ret (PyInt m)
  | SetMode m => mode_setter m ;; ret PyNone
  | GetRate => r <- rate ;; ret (PyInt r)
  | SetRate r => rate_setter r ;; ret PyNone
  | GetGain => g <- gain ;; ret (PyInt g)
  | SetGain g => gain_setter g ;; ret PyNone
  end.

(** The caller goes on after an exception, with the state the failed
    access left behind. *)
Fixpoint run (fmt : float_format) (ops : list op) (st : state)
  : list (result pyval) * state :=
  match ops with
  | [] => ([], st)
  | o :: ops' =>
      let (r, st1) := perform fmt o st in
      let (rs, st2) := run fmt ops' st1 in
      (r :: rs, st2)
  end.

(** What the bus does during one access: with the write of the config,
    and with the read of a [value] or [voltage]; when the read fails, the
    frame the access carries is what the failed transfer leaves in the
    buffer. *)
Record line : Type := { on_write : transfer; on_read : transfer }.

Definition clear : line := {| on_write := Acked; on_read := Acked |}.

Definition answer_of (t : transfer) (resp : frame) : answer :=
  match t with
  | Acked => Answers resp
  | Nacked => Fails resp
  end.

Definition perform_on (fmt : float_format) (b : line) (o : op) : M pyval :=
  match o with
  | GetValue resp =>
      v <- value_on (on_write b) (answer_of (on_read b) resp) ;;
      ret (match v with Some z => PyInt z | None => PyNone end)
  | GetVoltage resp =>
      voltage_on fmt (on_write b) (answer_of (on_read b) resp)
  | GetMode => m <- mode ;; ret (PyInt m)
  | SetMode m => mode_setter_on (on_write b) m ;; ret PyNone
  | GetRate => r <- rate ;; ret (PyInt r)
  | SetRate r => rate_setter_on (on_write b) r ;; ret PyNone
  | GetGain => g <- gain ;; ret (PyInt g)
  | SetGain g => gain_setter_on (on_write b) g ;; ret PyNone
  end.

Fixpoint run_on (fmt : float_format) (l : list (line * op)) (st : state)
  : list (result pyval) * state :=
  match l with
  | [] => ([], st)
  | (b, o) :: l' =>
      let (r, st1) := perform_on fmt b o st in
      let (rs, st2) := run_on fmt l' st1 in
      (r :: rs, st2)
  end.

(** The mode argument is annotated [Literal[0, 1]]; rate and gain arguments
    are checked by the setters themselves. *)
Definition well_typed (o : op) : Prop :=
  match o with
  | SetMode m => m = CONTINUOUS \/ m = SINGLE
  | _ => True
  end.



(** ** Vocabulary of the specification *)

Definition is_byte (z : Z) : Prop := 0 <= z < 256.

(** The state a driver is in as long as it is used at its types: the shadow
    config is one byte and the stored rate and gain are table entries. *)
Definition valid (s : ADS1100) : Prop :=
  is_byte (_config s) /\ In (_rate s) _DATA_RATE /\ In (_gain s) _GAINS.

(** Readiness in the words of the specification: continuous mode (bit 4
    clear), or single-shot mode (bit 4 set) with the busy flag (bit 7)
    clear. *)
Definition sample_ready (status : Z) : bool :=
  negb (Z.testbit status 4)
  || (Z.testbit status 4 && negb (Z.testbit status 7)).

(** The two sample bytes combined big-endian and masked to 16 bits. *)
Definition combine16 (msb lsb : Z) : Z :=
  Z.land (Z.lor (Z.shiftl msb 8) lsb) 0xFFFF.

Definition sample_of (resp : frame) : option Z :=
  if sample_ready (int_of_byte (cell2 resp))
  then Some (combine16 (int_of_byte (cell0 resp)) (int_of_byte (cell1 resp)))
  else None.

(** The ordered tables of the specification: rate and gain to field code. *)
Definition rate_code (r : Z) : Z :=
  if r =? 128 then 0 else if r =? 32 then 1 else if r =? 16 then 2 else 3.

Definition gain_code (g : Z) : Z :=
  if g =? 1 then 0 else if g =? 2 then 1 else if g =? 4 then 2 else 3.

(** Bits 3-2 and bits 1-0 of a config byte. *)
Definition dr_field (c : Z) : Z := Z.land (Z.shiftr c 2) 3.
Definition pga_field (c : Z) : Z := Z.land c 3.

(** The full-scale table of the specification. *)
Definition minCode (r : Z) : Z :=
  if r =? 128 then -2048
  else if r =? 32 then -8192
  else if r =? 16 then -16384
  else -32768.

(** A number as a float operand. *)
Definition to_float (fmt : float_format) (v : pyval) : spec_float :=
  match v with
  | PyNone => S754_nan
  | PyInt z => float_of_int fmt z
  | PyFloat f => f
  end.

Definition is_number (v : pyval) : Prop :=
  match v with
  | PyNone => False
  | _ => True
  end.

(** The scaling formula of the specification:
    (raw / (-minCode[rate] * gain)) * referenceVoltage * pressureRatio. *)
Definition scaled (fmt : float_format) (raw r g : Z) (vref ratio : pyval)
  : spec_float :=
  fmul fmt
    (fmul fmt
       (fdiv fmt (float_of_int fmt raw) (float_of_int fmt (- minCode r * g)))
       (to_float fmt vref))
    (to_float fmt ratio).

(** A float whose sign bit is [s], or a NaN; [sign_clear] for bit 0. *)
Definition has_sign (s : bool) (f : spec_float) : Prop :=
  match f with
  | S754_nan => True
  | S754_zero s' | S754_infinity s' | S754_finite s' _ _ => s' = s
  end.

Definition sign_clear (f : spec_float) : Prop := has_sign false f.

(** The config a setter computes: one field cleared, the new code put in. *)
Definition with_sc (c m : Z) : Z :=
  Z.lor (Z.land c (Z.lnot _SC_BIT)) (Z.shiftl m 4).
Definition with_dr (c code : Z) : Z :=
  Z.lor (Z.land c (Z.lnot _DR_BIT)) (Z.shiftl code 2).
Definition with_pga (c code : Z) : Z :=
  Z.lor (Z.land c (Z.lnot _PGA_BIT)) code.

(** The messages of the two [ValueError]s. *)
Definition rate_message : string :=
  "Rate should be one of the following values: (128, 32, 16, 8)".
Definition gain_message : string :=
  "Gain should be one of the following values: (1, 2, 4, 8)".

(** A message identifies a value when the value's decimal form occurs in
    it. *)
Definition mentions (msg : string) (v : Z) : bool :=
  contains (repr_int v) msg.

(** What the specification says of an assignment [mode = m] in state [st]:
    no error, [m] stored, the config set by the formula, the write done. *)
Definition mode_unchecked (m : Z) (st : state) : Prop :=
  let st' := snd (mode_setter m st) in
  fst (mode_setter m st) = Ok tt
  /\ _mode (fst st') = m
  /\ _config (fst st') = with_sc (_config (fst st)) m
  /\ exists data,
       bus (snd st') = bus (snd st) ++ [Writeto (_addr (fst st)) data].

(** What the specification says of a rejected rate [r]: the error message
    identifies [r]. *)
Definition rate_error_identifies (r : Z) (st : state) : Prop :=
  exists msg,
    fst (rate_setter r st) = Raise (ValueError msg) /\ mentions msg r = true.

(** What the specification says of [voltage] on a read that is not ready:
    the result is the float zero. *)
Definition absent_gives_float_zero (fmt : float_format) (resp : frame)
           (st : state) : Prop :=
  fst (value resp st) = Ok None ->
  fst (voltage fmt resp st) = Ok (PyFloat (S754_zero false)).

(** The value of the most recent assignment that passed the setter's
    membership test, read off the accesses alone. *)
Fixpoint last_rate_accepted (current : Z) (ops : list op) : Z :=
  match ops with
  | [] => current
  | SetRate r :: ops' =>
      last_rate_accepted
        (if tuple_contains r _DATA_RATE then r else current) ops'
  | _ :: ops' => last_rate_accepted current ops'
  end.

Fixpoint last_gain_accepted (current : Z) (ops : list op) : Z :=
  match ops with
  | [] => current
  | SetGain g :: ops' =>
      last_gain_accepted
        (if tuple_contains g _GAINS then g else current) ops'
  | _ :: ops' => last_gain_accepted current ops'
  end.


(** Every byte value, for checks that run over all of them. *)
Definition all_bytes : list Z := map Z.of_nat (seq 0 256).

(** The three transfers of one [value] access, in order. *)
Definition value_transfers (s : ADS1100) : list event :=
  [Writeto (_addr s) [byte_of_Z (_config s)];
   Sleep (1 # 10);
   Readfrom_into (_addr s) 3].


(** ** Vocabulary for the properties of whole sessions *)

(** An access that reads the device. *)
Definition is_read (o : op) : bool :=
  match o with
  | GetValue _ | GetVoltage _ => true
  | _ => false
  end.


(** The stored rate and gain are entries of their tables. *)
Definition in_tables (s : ADS1100) : Prop :=
  In (_rate s) _DATA_RATE /\ In (_gain s) _GAINS.

(** The config byte that carries a mode, a rate and a gain in their fields,
    with bit 7 set and bits 6-5 clear as in the constructor's 0x8C. *)
Definition encode_config (m r g : Z) : Z :=
  Z.lor (Z.lor (Z.lor 0x80 (Z.shiftl m 4)) (Z.shiftl (rate_code r) 2))
        (gain_code g).

(** The shadow config carries the stored mode, rate and gain. *)
Definition in_sync (s : ADS1100) : Prop :=
  (_mode s = CONTINUOUS \/ _mode s = SINGLE)
  /\ _config s = encode_config (_mode s) (_rate s) (_gain s).

(** The exception an access raises on a driver used at its types, if any:
    a rate or gain outside its table is refused before anything else; an
    access whose write, or whose read, fails raises what the bus raised. *)
Definition bus_error (t : transfer) : option exn :=
  match t with
  | Acked => None
  | Nacked => Some OSError
  end.

Definition expected_error (b : line) (o : op) : option exn :=
  match o with
  | GetValue _ | GetVoltage _ =>
      match bus_error (on_write b) with
      | Some x => Some x
      | None => bus_error (on_read b)
      end
  | SetMode _ => bus_error (on_write b)
  | SetRate r =>
      if tuple_contains r _DATA_RATE then bus_error (on_write b)
      else Some (ValueError rate_message)
  | SetGain g =>
      if tuple_contains g _GAINS then bus_error (on_write b)
      else Some (ValueError gain_message)
  | GetMode | GetRate | GetGain => None
  end.

Definition as_expected (e : (line * op) * result pyval) : Prop :=
  match expected_error (fst (fst e)) (snd (fst e)) with
  | Some x => snd e = Raise x
  | None => exists v, snd e = Ok v
  end.

(** A calibration constant that takes part in float arithmetic without an
    error: a float, or an int whose conversion does not overflow. *)
Definition in_float_range (fmt : float_format) (v : pyval) : Prop :=
  match v with
  | PyNone => False
  | PyFloat _ => True
  | PyInt z =>
      match float_of_int fmt z with
      | S754_infinity _ | S754_nan => False
      | _ => True
      end
  end.

(** The transfers a driver at address [a] may make: a one-byte write to
    [a], the tenth of a second of sleep, a three-byte read from [a]. *)
Definition own_event (a : Z) (ev : event) : Prop :=
  match ev with
  | Writeto a' data => a' = a /\ List.length data = 1%nat
  | Sleep q => q = (1 # 10)%Q
  | Readfrom_into a' n => a' = a /\ n = 3%nat
  end.


(** A calibration constant that is a positive finite number in format
    [fmt]. *)
Definition finite_positive (fmt : float_format) (v : pyval) : Prop :=
  exists m e, to_float fmt v = S754_finite false m e.

Definition common_format (fmt : float_format) : Prop :=
  fmt = binary64 \/ fmt = binary32.

(** ** Bytes and bit fields *)

Lemma int_of_byte_range (b : byte) : is_byte (int_of_byte b).
Proof.
  unfold is_byte, int_of_byte.
  pose proof (Byte.to_N_bounded b) as H. lia.
Qed.

Lemma int_of_byte_of_Z (z : Z) : is_byte z -> int_of_byte (byte_of_Z z) = z.
Proof.
  intros Hz. unfold int_of_byte, byte_of_Z.
  rewrite Z.mod_small by exact Hz.
  destruct (Byte.of_N (Z.to_N z)) as [b|] eqn:E.
  - apply Byte.to_of_N in E. rewrite E. unfold is_byte in Hz. lia.
  - apply Byte.of_N_None_iff in E. unfold is_byte in Hz. lia.
Qed.

Lemma to_bytes_one (z : Z) : is_byte z -> to_bytes z 1 = Ok [byte_of_Z z].
Proof.
  intros [Hlo Hhi]. unfold to_bytes.
  replace (z <? 0) with false by (symmetry; apply Z.ltb_ge; exact Hlo).
  replace (256 ^ Z.of_nat 1 <=? z) with false
    by (symmetry; apply Z.leb_gt; exact Hhi).
  simpl. rewrite Z.div_1_r. reflexivity.
Qed.


(** Testing a flag with [&] is testing its bit. *)
Lemma land_pow2_eqb (x n : Z) :
  0 <= n -> (Z.land x (2 ^ n) =? 0) = negb (Z.testbit x n).
Proof.
  intros Hn. destruct (Z.testbit x n) eqn:E; simpl.
  - apply Z.eqb_neq. intros H.
    assert (Z.testbit (Z.land x (2 ^ n)) n = true) as T.
    { rewrite Z.land_spec, E, Z.pow2_bits_true by exact Hn. reflexivity. }
    rewrite H, Z.bits_0 in T. discriminate.
  - apply Z.eqb_eq. apply Z.bits_inj'. intros i Hi.
    rewrite Z.land_spec, Z.bits_0.
    destruct (Z.eq_dec n i) as [->|Hne].
    + rewrite E. reflexivity.
    + rewrite Z.pow2_bits_false by exact Hne. apply andb_false_r.
Qed.

Lemma land_pow2_gtb (x n : Z) :
  0 <= n -> (Z.land x (2 ^ n) >? 0) = Z.testbit x n.
Proof.
  intros Hn. pose proof (land_pow2_eqb x n Hn) as H.
  assert (0 <= Z.land x (2 ^ n)) as Hpos.
  { apply Z.land_nonneg. right. apply Z.pow_nonneg. lia. }
  rewrite Z.gtb_ltb.
  destruct (Z.testbit x n); simpl in H.
  - apply Z.eqb_neq in H. apply Z.ltb_lt. lia.
  - apply Z.eqb_eq in H. rewrite H. reflexivity.
Qed.

(** The readiness test of [value] is the readiness of the specification. *)
Lemma ready_test (cfg : Z) :
  (Z.land cfg _SC_BIT =? 0)
  || ((Z.land cfg _SC_BIT >? 0) && (Z.land cfg _ST_BSY_BIT =? 0))
  = sample_ready cfg.
Proof.
  unfold sample_ready.
  change _SC_BIT with (2 ^ 4). change _ST_BSY_BIT with (2 ^ 7).
  rewrite !land_pow2_eqb, land_pow2_gtb by lia. reflexivity.
Qed.

(** A byte is a non-negative integer with no bit from bit 8 up. *)
Lemma is_byte_bits (a : Z) :
  is_byte a <-> 0 <= a /\ forall i, 8 <= i -> Z.testbit a i = false.
Proof.
  unfold is_byte. split.
  - intros [Hlo Hhi]. split; [exact Hlo|]. intros i Hi.
    destruct (Z.eq_dec a 0) as [->|Hnz]; [apply Z.bits_0|].
    apply Z.bits_above_log2; [lia|].
    assert (Z.log2 a < 8); [|lia].
    apply Z.log2_lt_pow2; lia.
  - intros [Hlo Hbits].
    assert (a = a mod 2 ^ 8) as E.
    { apply Z.bits_inj'. intros i Hi.
      destruct (Z_lt_le_dec i 8) as [Hlt|Hge].
      - rewrite Z.mod_pow2_bits_low by lia. reflexivity.
      - rewrite Z.mod_pow2_bits_high by lia. apply Hbits. exact Hge. }
    pose proof (Z.mod_pos_bound a (2 ^ 8)) as B.
    change (2 ^ 8) with 256 in *. lia.
Qed.

Lemma is_byte_land (a x : Z) : is_byte a -> is_byte (Z.land a x).
Proof.
  intros Ha. apply is_byte_bits in Ha. destruct Ha as [Hlo Hbits].
  apply is_byte_bits. split.
  - apply Z.land_nonneg. left. exact Hlo.
  - intros i Hi. rewrite Z.land_spec, (Hbits i Hi). reflexivity.
Qed.

Lemma is_byte_lor (a b : Z) : is_byte a -> is_byte b -> is_byte (Z.lor a b).
Proof.
  intros Ha Hb. apply is_byte_bits in Ha, Hb.
  destruct Ha as [Ha Hab], Hb as [Hb Hbb].
  apply is_byte_bits. split.
  - apply Z.lor_nonneg. split; assumption.
  - intros i Hi. rewrite Z.lor_spec, (Hab i Hi), (Hbb i Hi). reflexivity.
Qed.

(** A byte and a value shifted past it share no bit. *)
Lemma shifted_disjoint (msb lsb : Z) :
  is_byte lsb -> Z.land (msb * 256) lsb = 0.
Proof.
  intros Hl. apply is_byte_bits in Hl. destruct Hl as [_ Hbits].
  apply Z.bits_inj'. intros i Hi. rewrite Z.land_spec, Z.bits_0.
  destruct (Z_lt_le_dec i 8) as [Hlt|Hge].
  - change 256 with (2 ^ 8). rewrite Z.mul_pow2_bits_low by lia.
    reflexivity.
  - rewrite (Hbits i Hge). apply andb_false_r.
Qed.

(** Two bytes combined big-endian: no masking is lost and no sign appears. *)
Lemma combine16_bytes (msb lsb : Z) :
  is_byte msb -> is_byte lsb -> combine16 msb lsb = msb * 256 + lsb.
Proof.
  intros Hm Hl. pose proof (shifted_disjoint msb lsb Hl) as D.
  unfold is_byte in Hm, Hl. unfold combine16.
  rewrite Z.shiftl_mul_pow2 by lia. change (2 ^ 8) with 256.
  rewrite <- Z.lxor_lor by exact D.
  rewrite <- Z.add_nocarry_lxor by exact D.
  change 0xFFFF with (Z.ones 16).
  rewrite Z.land_ones by lia. apply Z.mod_small.
  change (2 ^ 16) with 65536. lia.
Qed.

Lemma combine16_range (msb lsb : Z) : 0 <= combine16 msb lsb <= 65535.
Proof.
  unfold combine16. change 0xFFFF with (Z.ones 16).
  rewrite Z.land_ones by lia.
  change (2 ^ 16) with 65536.
  pose proof (Z.mod_pos_bound (Z.lor (Z.shiftl msb 8) lsb) 65536) as H.
  change (Z.ones 16) with 65535. lia.
Qed.

(** ** What each method does to the state *)

Lemma write_config_ok (st : state) :
  is_byte (_config (fst st)) ->
  write_config st =
    (Ok tt, (fst st,
             log (snd st) [Writeto (_addr (fst st))
                                   [byte_of_Z (_config (fst st))]])).
Proof.
  intros Hc. unfold write_config, write_config_on, bind, attr, lift, i2c_writeto, emit.
  rewrite (to_bytes_one _ Hc). reflexivity.
Qed.


Lemma value_ok (resp : frame) (st : state) :
  is_byte (_config (fst st)) ->
  value resp st =
    (Ok (sample_of resp),
     (with_config (fst st) (int_of_byte (cell2 resp)),
      {| _BUFFER := resp;
         bus := bus (snd st) ++ value_transfers (fst st) |})).
Proof.
  intros Hc. destruct st as [s w]. unfold value, value_on, bind. fold write_config.
  rewrite (write_config_ok _ Hc).
  unfold time_sleep, emit, _read, bind, attr, i2c_readfrom_into_BUFFER,
    buffer, set_config, assign, ret, log.
  cbn [fst snd _BUFFER bus cell0 cell1 cell2 _config _addr with_config].
  rewrite ready_test. unfold sample_of, combine16, value_transfers.
  rewrite <- !app_assoc. cbn [app].
  destruct (sample_ready (int_of_byte (cell2 resp))); reflexivity.
Qed.

Lemma mode_setter_ok (m : Z) (st : state) :
  let c := with_sc (_config (fst st)) m in
  is_byte c ->
  mode_setter m st =
    (Ok tt, (with_config (with_mode (fst st) m) c,
             log (snd st) [Writeto (_addr (fst st)) [byte_of_Z c]])).
Proof.
  intros c Hc. destruct st as [s w]. unfold mode_setter, mode_setter_on, bind.
  unfold set_mode_attr, set_config, assign, attr.
  cbn [fst snd _config with_mode].
  rewrite write_config_ok by exact Hc. reflexivity.
Qed.


(** ** The [value] property *)

(** C1: for every 3-byte answer [msb, lsb, status] of the device, [value]
    returns ((msb << 8) | lsb) & 0xFFFF exactly when bit 4 of the status is
    clear, or bit 4 is set and bit 7 is clear; when both bits are set it
    returns None, which is not the reading zero. *)
Theorem value_present_iff_ready (resp : frame) (st : state) :
  is_byte (_config (fst st)) ->
  let msb := int_of_byte (cell0 resp) in
  let lsb := int_of_byte (cell1 resp) in
  let status := int_of_byte (cell2 resp) in
  let raw := Z.land (Z.lor (Z.shiftl msb 8) lsb) 0xFFFF in
  let ready :=
    Z.testbit status 4 = false
    \/ (Z.testbit status 4 = true /\ Z.testbit status 7 = false) in
  _BUFFER (snd (snd (value resp st))) = resp
  /\ (fst (value resp st) = Ok (Some raw) <-> ready)
  /\ (fst (value resp st) = Ok None <->
      Z.testbit status 4 = true /\ Z.testbit status 7 = true)
  /\ (fst (value resp st) = Ok None -> fst (value resp st) <> Ok (Some 0))
  /\ raw = msb * 256 + lsb.
Proof.
  intros Hc msb lsb status raw ready.
  rewrite (value_ok resp st Hc). cbn [fst snd _BUFFER].
  unfold sample_of, sample_ready, combine16, ready.
  fold msb lsb status raw.
  split; [reflexivity|].
  split; [|split; [|split]].
  - destruct (Z.testbit status 4), (Z.testbit status 7); cbn;
      split; intros H; try reflexivity; try discriminate; try tauto;
      destruct H as [H|[H1 H2]]; discriminate.
  - destruct (Z.testbit status 4), (Z.testbit status 7); cbn;
      split; intros H; try reflexivity; try discriminate; try tauto;
      destruct H as [H1 H2]; discriminate.
  - intros H. rewrite H. discriminate.
  - apply combine16_bytes; apply int_of_byte_range.
Qed.

(** A driver fresh from the constructor reading [0x12, 0x34, 0x0C]. *)
Lemma value_present_iff_ready_witness :
  fst (value {| cell0 := x12; cell1 := x34; cell2 := x0c |} (fresh binary64))
  = Ok (Some 0x1234).
Proof.
  pose proof (value_present_iff_ready
                {| cell0 := x12; cell1 := x34; cell2 := x0c |}
                (fresh binary64)) as H.
  cbv zeta in H.
  destruct H as (_ & [_ H] & _); [unfold is_byte; simpl; lia|].
  rewrite H; [reflexivity|]. left. reflexivity.
Defined.

(** C5: one [value] access writes the one-byte shadow config to the device
    address, sleeps a tenth of a second, reads three bytes into the scratch
    buffer, and takes the third byte as the new shadow config, which is the
    one the readiness test looks at; these are its only transfers. *)
Theorem value_transfer_sequence (resp : frame) (st : state) :
  is_byte (_config (fst st)) ->
  let st' := snd (value resp st) in
  let addr := _addr (fst st) in
  let cfg := _config (fst st) in
  bus (snd st') =
    bus (snd st) ++ [Writeto addr [byte_of_Z cfg]; Sleep (1 # 10);
                     Readfrom_into addr 3]
  /\ int_of_byte (byte_of_Z cfg) = cfg
  /\ ((1 # 10) * 1000 == 100)%Q
  /\ _BUFFER (snd st') = resp
  /\ _config (fst st') = int_of_byte (cell2 resp)
  /\ fst (value resp st) =
       Ok (if sample_ready (_config (fst st'))
           then Some (combine16 (int_of_byte (cell0 resp))
                                (int_of_byte (cell1 resp)))
           else None)
  /\ with_config (fst st') cfg = fst st.
Proof.
  intros Hc st' addr cfg. subst st'.
  rewrite (value_ok resp st Hc). cbn [fst snd _BUFFER bus _config with_config].
  repeat split.
  - apply int_of_byte_of_Z. exact Hc.
  - destruct st as [[a rv pr c m r g] w]. reflexivity.
Qed.

Lemma value_transfer_sequence_witness :
  bus (snd (snd (value {| cell0 := x12; cell1 := x34; cell2 := x9c |}
                       (fresh binary64))))
  = [Writeto 0x48 [x8c]; Sleep (1 # 10); Readfrom_into 0x48 3].
Proof.
  pose proof (value_transfer_sequence
                {| cell0 := x12; cell1 := x34; cell2 := x9c |}
                (fresh binary64)) as H.
  cbv zeta in H.
  destruct H as (H & _); [unfold is_byte; simpl; lia|].
  rewrite H. reflexivity.
Defined.

(** ** The setters *)

(** A boolean property checked on the 256 byte values holds of every byte. *)
Lemma byte_forall (P : Z -> bool) :
  forallb P all_bytes = true -> forall c, is_byte c -> P c = true.
Proof.
  intros H c [Hlo Hhi]. rewrite forallb_forall in H. apply H.
  unfold all_bytes. apply in_map_iff. exists (Z.to_nat c). split.
  - apply Z2Nat.id. exact Hlo.
  - apply in_seq. lia.
Qed.

Lemma tuple_contains_In (x : Z) (t : list Z) :
  tuple_contains x t = true <-> In x t.
Proof.
  unfold tuple_contains. rewrite existsb_exists. split.
  - intros [y [Hy E]]. apply Z.eqb_eq in E. subst. exact Hy.
  - intros H. exists x. split; [exact H|apply Z.eqb_refl].
Qed.

Lemma tuple_contains_not_In (x : Z) (t : list Z) :
  ~ In x t -> tuple_contains x t = false.
Proof.
  intros H. destruct (tuple_contains x t) eqn:E; [|reflexivity].
  apply tuple_contains_In in E. contradiction.
Qed.

Lemma rate_index (r : Z) :
  In r _DATA_RATE -> tuple_index r _DATA_RATE = Ok (rate_code r).
Proof.
  intros H. simpl in H.
  destruct H as [<-|[<-|[<-|[<-|[]]]]]; reflexivity.
Qed.

Lemma gain_index (g : Z) :
  In g _GAINS -> tuple_index g _GAINS = Ok (gain_code g).
Proof.
  intros H. simpl in H.
  destruct H as [<-|[<-|[<-|[<-|[]]]]]; reflexivity.
Qed.

Lemma rate_code_range (r : Z) : 0 <= rate_code r < 4.
Proof.
  unfold rate_code.
  destruct (r =? 128), (r =? 32), (r =? 16); lia.
Qed.

Lemma gain_code_range (g : Z) : 0 <= gain_code g < 4.
Proof.
  unfold gain_code.
  destruct (g =? 1), (g =? 2), (g =? 4); lia.
Qed.

Lemma is_byte_shiftl (v n : Z) :
  0 <= n -> 0 <= v -> v * 2 ^ n < 256 -> is_byte (Z.shiftl v n).
Proof.
  intros Hn Hv Hlt. unfold is_byte.
  rewrite Z.shiftl_mul_pow2 by exact Hn.
  split; [|exact Hlt]. apply Z.mul_nonneg_nonneg; [exact Hv|].
  apply Z.pow_nonneg. lia.
Qed.

Lemma with_sc_byte (c m : Z) : is_byte c -> 0 <= m < 16 -> is_byte (with_sc c m).
Proof.
  intros Hc Hm. unfold with_sc. apply is_byte_lor.
  - apply is_byte_land. exact Hc.
  - apply is_byte_shiftl; change (2 ^ 4) with 16; lia.
Qed.

Lemma with_dr_byte (c v : Z) : is_byte c -> 0 <= v < 4 -> is_byte (with_dr c v).
Proof.
  intros Hc Hv. unfold with_dr. apply is_byte_lor.
  - apply is_byte_land. exact Hc.
  - apply is_byte_shiftl; change (2 ^ 2) with 4; lia.
Qed.

Lemma with_pga_byte (c v : Z) : is_byte c -> 0 <= v < 4 -> is_byte (with_pga c v).
Proof.
  intros Hc Hv. unfold with_pga. apply is_byte_lor.
  - apply is_byte_land. exact Hc.
  - unfold is_byte. lia.
Qed.

(** The written field reads back as the code, and the rest of the byte is
    as before; checked on every byte and every code. *)
Lemma with_dr_fields (c v : Z) :
  is_byte c -> 0 <= v < 4 ->
  dr_field (with_dr c v) = v
  /\ Z.land (with_dr c v) (Z.lnot _DR_BIT) = Z.land c (Z.lnot _DR_BIT).
Proof.
  intros Hc Hv.
  pose (P := fun c =>
    forallb (fun v => (dr_field (with_dr c v) =? v)
                      && (Z.land (with_dr c v) (Z.lnot _DR_BIT)
                          =? Z.land c (Z.lnot _DR_BIT)))
            [0; 1; 2; 3]).
  assert (P c = true) as H by (apply byte_forall; [vm_compute; reflexivity|exact Hc]).
  unfold P in H. rewrite forallb_forall in H.
  assert (In v [0; 1; 2; 3]) as Hin by (simpl; lia).
  specialize (H v Hin). apply andb_true_iff in H. destruct H as [H1 H2].
  apply Z.eqb_eq in H1, H2. split; assumption.
Qed.

Lemma with_pga_fields (c v : Z) :
  is_byte c -> 0 <= v < 4 ->
  pga_field (with_pga c v) = v
  /\ Z.land (with_pga c v) (Z.lnot _PGA_BIT) = Z.land c (Z.lnot _PGA_BIT).
Proof.
  intros Hc Hv.
  pose (P := fun c =>
    forallb (fun v => (pga_field (with_pga c v) =? v)
                      && (Z.land (with_pga c v) (Z.lnot _PGA_BIT)
                          =? Z.land c (Z.lnot _PGA_BIT)))
            [0; 1; 2; 3]).
  assert (P c = true) as H by (apply byte_forall; [vm_compute; reflexivity|exact Hc]).
  unfold P in H. rewrite forallb_forall in H.
  assert (In v [0; 1; 2; 3]) as Hin by (simpl; lia).
  specialize (H v Hin). apply andb_true_iff in H. destruct H as [H1 H2].
  apply Z.eqb_eq in H1, H2. split; assumption.
Qed.

(** Bit 4 takes the mode and every other bit stays, for any integer
    config. *)
Lemma with_sc_bits (c m : Z) :
  m = CONTINUOUS \/ m = SINGLE ->
  Z.testbit (with_sc c m) 4 = (m =? SINGLE)
  /\ forall i, i <> 4 -> Z.testbit (with_sc c m) i = Z.testbit c i.
Proof.
  intros Hm. unfold with_sc, CONTINUOUS, SINGLE in *.
  assert (forall i, 0 <= i ->
            Z.testbit (Z.lor (Z.land c (Z.lnot _SC_BIT)) (Z.shiftl m 4)) i
            = (Z.testbit c i && negb (4 =? i)) || ((m =? 1) && (4 =? i)))
    as B.
  { intros i Hi. rewrite Z.lor_spec, Z.land_spec, Z.lnot_spec by exact Hi.
    change _SC_BIT with (2 ^ 4). rewrite Z.pow2_bits_eqb by lia.
    destruct Hm as [->| ->].
    - rewrite Z.shiftl_0_l, Z.bits_0. reflexivity.
    - change (Z.shiftl 1 4) with (2 ^ 4). rewrite Z.pow2_bits_eqb by lia.
      reflexivity. }
  split.
  - rewrite B by lia. simpl. rewrite andb_false_r, andb_true_r. reflexivity.
  - intros i Hi. destruct (Z_lt_le_dec i 0) as [Hneg|Hpos].
    + rewrite !Z.testbit_neg_r by exact Hneg. reflexivity.
    + rewrite B by exact Hpos.
      replace (4 =? i) with false by (symmetry; apply Z.eqb_neq; lia).
      simpl. rewrite andb_true_r, andb_false_r, orb_false_r. reflexivity.
Qed.

Lemma mode_setter_eq (m : Z) (st : state) :
  mode_setter m st =
    write_config (with_config (with_mode (fst st) m)
                              (with_sc (_config (fst st)) m), snd st).
Proof.
  destruct st as [s w]. reflexivity.
Qed.

Lemma rate_setter_ok (r : Z) (st : state) :
  In r _DATA_RATE -> is_byte (_config (fst st)) ->
  let c := with_dr (_config (fst st)) (rate_code r) in
  rate_setter r st =
    (Ok tt, (with_config (with_rate (fst st) r) c,
             log (snd st) [Writeto (_addr (fst st)) [byte_of_Z c]])).
Proof.
  intros Hr Hc c. destruct st as [s w]. unfold rate_setter, rate_setter_on.
  rewrite (proj2 (tuple_contains_In _ _) Hr). cbn [negb].
  unfold bind, set_rate_attr, set_config, assign, attr, lift.
  cbn [fst snd _config with_rate]. rewrite (rate_index r Hr).
  rewrite write_config_ok.
  - reflexivity.
  - cbn [fst _config with_config]. apply with_dr_byte;
      [exact Hc|apply rate_code_range].
Qed.

Lemma gain_setter_ok (g : Z) (st : state) :
  In g _GAINS -> is_byte (_config (fst st)) ->
  let c := with_pga (_config (fst st)) (gain_code g) in
  gain_setter g st =
    (Ok tt, (with_config (with_gain (fst st) g) c,
             log (snd st) [Writeto (_addr (fst st)) [byte_of_Z c]])).
Proof.
  intros Hg Hc c. destruct st as [s w]. unfold gain_setter, gain_setter_on.
  rewrite (proj2 (tuple_contains_In _ _) Hg). cbn [negb].
  unfold bind, set_gain_attr, set_config, assign, attr, lift.
  cbn [fst snd _config with_gain]. rewrite (gain_index g Hg).
  rewrite write_config_ok.
  - reflexivity.
  - cbn [fst _config with_config]. apply with_pga_byte;
      [exact Hc|apply gain_code_range].
Qed.

Lemma rate_setter_invalid (r : Z) (st : state) :
  ~ In r _DATA_RATE ->
  rate_setter r st = (Raise (ValueError rate_message), st).
Proof.
  intros Hr. unfold rate_setter, rate_setter_on.
  rewrite (tuple_contains_not_In _ _ Hr). reflexivity.
Qed.

Lemma gain_setter_invalid (g : Z) (st : state) :
  ~ In g _GAINS ->
  gain_setter g st = (Raise (ValueError gain_message), st).
Proof.
  intros Hg. unfold gain_setter, gain_setter_on.
  rewrite (tuple_contains_not_In _ _ Hg). reflexivity.
Qed.

(** C6: assigning a mode m in {CONTINUOUS, SINGLE} stores m, puts m in bit
    4 of the shadow config and keeps every other bit, writes the new config
    to the device as one byte in one transfer, and the getter then returns
    m. *)
Theorem mode_setter_sets_bit4 (m : Z) (st : state) :
  is_byte (_config (fst st)) ->
  m = CONTINUOUS \/ m = SINGLE ->
  let st' := snd (mode_setter m st) in
  let c := _config (fst st) in
  let c' := _config (fst st') in
  fst (mode_setter m st) = Ok tt
  /\ _mode (fst st') = m
  /\ fst (mode st') = Ok m
  /\ Z.testbit c' 4 = (m =? SINGLE)
  /\ (forall i, i <> 4 -> Z.testbit c' i = Z.testbit c i)
  /\ bus (snd st') = bus (snd st) ++ [Writeto (_addr (fst st)) [byte_of_Z c']]
  /\ int_of_byte (byte_of_Z c') = c'
  /\ with_config (with_mode (fst st) m) c' = fst st'
  /\ _BUFFER (snd st') = _BUFFER (snd st).
Proof.
  intros Hc Hm st' c c'.
  assert (is_byte (with_sc c m)) as Hb.
  { apply with_sc_byte; [exact Hc|].
    unfold CONTINUOUS, SINGLE in Hm. lia. }
  pose proof (mode_setter_ok m st Hb) as E. cbv zeta in E.
  subst st' c'. rewrite E. cbn [fst snd _mode _config with_config log bus _BUFFER].
  unfold mode, attr. cbn [fst snd _mode with_config].
  destruct (with_sc_bits c m Hm) as [B4 Bo].
  fold c.
  repeat split; try reflexivity; try assumption.
  apply int_of_byte_of_Z. exact Hb.
Qed.

(** SINGLE then CONTINUOUS on a fresh driver: bit 4 goes up and down, one
    write per assignment. *)
Lemma mode_setter_sets_bit4_witness :
  let st1 := snd (mode_setter SINGLE (fresh binary64)) in
  let st2 := snd (mode_setter CONTINUOUS st1) in
  bus (snd st1) = [Writeto 0x48 [x9c]]
  /\ bus (snd st2) = [Writeto 0x48 [x9c]; Writeto 0x48 [x8c]].
Proof.
  cbv zeta.
  pose proof (mode_setter_sets_bit4 SINGLE (fresh binary64)) as H1.
  pose proof (mode_setter_sets_bit4 CONTINUOUS
                (snd (mode_setter SINGLE (fresh binary64)))) as H2.
  cbv zeta in H1, H2.
  destruct H1 as (_ & _ & _ & _ & _ & B1 & _);
    [unfold is_byte; simpl; lia|right; reflexivity|].
  destruct H2 as (_ & _ & _ & _ & _ & B2 & _);
    [vm_compute; split; [discriminate|reflexivity]|left; reflexivity|].
  split.
  - rewrite B1. reflexivity.
  - rewrite B2. reflexivity.
Defined.

(** [mode = 16] on a fresh driver: the new config 0x18C does not fit the
    one byte [to_bytes] is asked for, so the assignment raises
    [OverflowError] and nothing is written. *)
Lemma mode_unchecked_counterexample :
  ~ mode_unchecked 16 (fresh binary64).
Proof.
  unfold mode_unchecked. intros (H & _). vm_compute in H. discriminate.
Qed.

(** [mode = 8] on a fresh driver raises nothing and writes, yet no bit of
    the config 0x8C changes: bit 7 was set already. *)
Lemma mode_8_keeps_config :
  mode_setter 8 (fresh binary64)
  = (Ok tt, (with_mode (fst (fresh binary64)) 8,
             log (snd (fresh binary64)) [Writeto 0x48 [x8c]])).
Proof. reflexivity. Qed.

(** C8, amended: the mode setter validates nothing.  For every integer m
    it stores m and sets the shadow config to (config & ~0x10) | (m << 4);
    when that config fits a byte, as it does for 0 <= m <= 15 on a one-byte
    config, it returns normally having written it as one byte; when it
    exceeds 255 the [to_bytes] of the write raises [OverflowError] after
    the two assignments and nothing is written. *)
Theorem mode_setter_unvalidated (m : Z) (st : state) :
  let st' := snd (mode_setter m st) in
  let c' := with_sc (_config (fst st)) m in
  _mode (fst st') = m
  /\ _config (fst st') = c'
  /\ (is_byte c' ->
      fst (mode_setter m st) = Ok tt
      /\ bus (snd st') = bus (snd st) ++ [Writeto (_addr (fst st)) [byte_of_Z c']])
  /\ (256 <= c' ->
      fst (mode_setter m st) = Raise OverflowError
      /\ bus (snd st') = bus (snd st))
  /\ (is_byte (_config (fst st)) -> 0 <= m <= 15 -> is_byte c').
Proof.
  intros st' c'. subst st'. rewrite mode_setter_eq. fold c'.
  destruct st as [s w].
  unfold write_config, write_config_on, bind, attr, lift, i2c_writeto, emit, to_bytes.
  cbn [fst snd _config _addr with_config with_mode].
  change (256 ^ Z.of_nat 1) with 256.
  destruct ((c' <? 0) || (256 <=? c')) eqn:T;
    cbn [fst snd _config _mode _addr with_config with_mode log bus].
  - apply orb_true_iff in T.
    split; [reflexivity|]. split; [reflexivity|]. split; [|split].
    + intros [Hlo Hhi]. exfalso. destruct T as [T|T].
      * apply Z.ltb_lt in T. lia.
      * apply Z.leb_le in T. lia.
    + intros _. split; reflexivity.
    + intros Hc Hm. apply with_sc_byte; [exact Hc|lia].
  - apply orb_false_iff in T. destruct T as [T1 T2].
    apply Z.ltb_ge in T1. apply Z.leb_gt in T2.
    split; [reflexivity|]. split; [reflexivity|]. split; [|split].
    + intros _. split; [reflexivity|].
      cbn [big_endian]. rewrite Z.div_1_r. reflexivity.
    + intros Hn. exfalso. lia.
    + intros Hc Hm. apply with_sc_byte; [exact Hc|lia].
Qed.

(** [mode = 2] on a fresh driver: accepted, stored, and bit 5 of the
    config is set along the way. *)
Lemma mode_setter_unvalidated_witness :
  fst (mode_setter 2 (fresh binary64)) = Ok tt
  /\ bus (snd (snd (mode_setter 2 (fresh binary64)))) = [Writeto 0x48 [xac]].
Proof.
  pose proof (mode_setter_unvalidated 2 (fresh binary64)) as H.
  cbv zeta in H. destruct H as (_ & _ & H & _).
  destruct H as [H1 H2]; [vm_compute; split; [discriminate|reflexivity]|].
  split; [exact H1|]. rewrite H2. reflexivity.
Defined.

(** C4: for every rate of the table, assigning it and reading it back gives
    the same rate, and the config byte written to the device carries the
    rate's table index in bits 3-2 (128 -> 0, 32 -> 1, 16 -> 2, 8 -> 3);
    likewise every gain of the table reads back and the written byte
    carries its index in bits 1-0. *)
Theorem rate_gain_roundtrip (st : state) :
  is_byte (_config (fst st)) ->
  (forall r, In r _DATA_RATE ->
     exists b,
       fst (rate_setter r st) = Ok tt
       /\ fst (rate (snd (rate_setter r st))) = Ok r
       /\ bus (snd (snd (rate_setter r st)))
          = bus (snd st) ++ [Writeto (_addr (fst st)) [b]]
       /\ int_of_byte b = _config (fst (snd (rate_setter r st)))
       /\ dr_field (int_of_byte b) = rate_code r
       /\ tuple_index r _DATA_RATE = Ok (rate_code r))
  /\ (forall g, In g _GAINS ->
     exists b,
       fst (gain_setter g st) = Ok tt
       /\ fst (gain (snd (gain_setter g st))) = Ok g
       /\ bus (snd (snd (gain_setter g st)))
          = bus (snd st) ++ [Writeto (_addr (fst st)) [b]]
       /\ int_of_byte b = _config (fst (snd (gain_setter g st)))
       /\ pga_field (int_of_byte b) = gain_code g
       /\ tuple_index g _GAINS = Ok (gain_code g))
  /\ map rate_code _DATA_RATE = [0; 1; 2; 3]
  /\ map gain_code _GAINS = [0; 1; 2; 3].
Proof.
  intros Hc. split; [|split; [|split; reflexivity]].
  - intros r Hr.
    pose proof (rate_setter_ok r st Hr Hc) as E. cbv zeta in E.
    pose proof (with_dr_byte _ _ Hc (rate_code_range r)) as Hb.
    exists (byte_of_Z (with_dr (_config (fst st)) (rate_code r))).
    rewrite E. unfold rate, attr. cbn [fst snd _rate _config with_config
                                           with_rate log bus].
    rewrite (int_of_byte_of_Z _ Hb).
    repeat split; try reflexivity.
    + apply with_dr_fields; [exact Hc|apply rate_code_range].
    + apply rate_index. exact Hr.
  - intros g Hg.
    pose proof (gain_setter_ok g st Hg Hc) as E. cbv zeta in E.
    pose proof (with_pga_byte _ _ Hc (gain_code_range g)) as Hb.
    exists (byte_of_Z (with_pga (_config (fst st)) (gain_code g))).
    rewrite E. unfold gain, attr. cbn [fst snd _gain _config with_config
                                           with_gain log bus].
    rewrite (int_of_byte_of_Z _ Hb).
    repeat split; try reflexivity.
    + apply with_pga_fields; [exact Hc|apply gain_code_range].
    + apply gain_index. exact Hg.
Qed.

(** Rate 32 on a fresh driver: the write carries 0x84, field 01. *)
Lemma rate_gain_roundtrip_witness :
  fst (rate (snd (rate_setter 32 (fresh binary64)))) = Ok 32
  /\ fst (gain (snd (gain_setter 4 (fresh binary64)))) = Ok 4.
Proof.
  pose proof (rate_gain_roundtrip (fresh binary64)) as H.
  destruct H as (Hr & Hg & _); [unfold is_byte; simpl; lia|].
  destruct (Hr 32) as (b & _ & R & _); [simpl; tauto|].
  destruct (Hg 4) as (b' & _ & G & _); [simpl; tauto|].
  split; assumption.
Defined.

(** Rate 64 is rejected with a message in which 64 does not occur. *)
Lemma rate_error_identifies_counterexample :
  ~ rate_error_identifies 64 (fresh binary64).
Proof.
  unfold rate_error_identifies. intros (msg & E & M).
  rewrite rate_setter_invalid in E by (simpl; lia).
  cbn [fst] in E. inversion E; subst msg. vm_compute in M. discriminate.
Qed.

(** C3, amended: a rate outside {128, 32, 16, 8}, and a gain outside
    {1, 2, 4, 8}, makes the setter raise [ValueError] at once, with no
    transfer and with the stored rate (gain), the shadow config and all the
    rest of the state unchanged; the message names the parameter and lists
    the valid values, and is the same whatever the rejected value. *)
Theorem setter_rejects_invalid (st : state) :
  (forall r, ~ In r _DATA_RATE ->
     rate_setter r st = (Raise (ValueError rate_message), st))
  /\ (forall g, ~ In g _GAINS ->
     gain_setter g st = (Raise (ValueError gain_message), st))
  /\ rate_message
     = format0 "Rate should be one of the following values: {0}"
               (repr_tuple _DATA_RATE)
  /\ gain_message
     = format0 "Gain should be one of the following values: {0}"
               (repr_tuple _GAINS)
  /\ contains (repr_tuple _DATA_RATE) rate_message = true
  /\ contains (repr_tuple _GAINS) gain_message = true.
Proof.
  split; [|split; [|repeat split]].
  - intros r Hr. apply rate_setter_invalid. exact Hr.
  - intros g Hg. apply gain_setter_invalid. exact Hg.
Qed.

(** Rate 64 and gain 3 on a fresh driver. *)
Lemma setter_rejects_invalid_witness :
  snd (rate_setter 64 (fresh binary64)) = fresh binary64
  /\ snd (gain_setter 3 (fresh binary64)) = fresh binary64.
Proof.
  pose proof (setter_rejects_invalid (fresh binary64)) as H.
  destruct H as (Hr & Hg & _).
  rewrite (Hr 64) by (simpl; lia). rewrite (Hg 3) by (simpl; lia).
  split; reflexivity.
Defined.

(** ** Signs in float arithmetic *)

(** Rounding keeps the sign it is given. *)
Lemma binary_round_aux_sign (p e : Z) (s : bool) (m ex : Z) (l : location) :
  has_sign s (binary_round_aux p e s m ex l).
Proof.
  unfold binary_round_aux.
  destruct (shr_fexp p e m ex l) as [mrs' e'].
  destruct (shr_fexp p e _ e' loc_Exact) as [mrs'' e''].
  destruct (shr_m mrs''); [reflexivity| |exact I].
  destruct (e'' <=? e - p); reflexivity.
Qed.

Lemma binary_round_sign (p e : Z) (s : bool) (m : positive) (ex : Z) :
  has_sign s (binary_round p e s m ex).
Proof.
  unfold binary_round.
  destruct (shl_align m ex _) as [mz ez].
  apply binary_round_aux_sign.
Qed.

Lemma float_of_int_sign (fmt : float_format) (z : Z) :
  0 <= z -> sign_clear (float_of_int fmt z).
Proof.
  intros Hz. unfold sign_clear, float_of_int, binary_normalize.
  destruct z as [|q|q]; [reflexivity|apply binary_round_sign|lia].
Qed.

Lemma fmul_sign (fmt : float_format) (x y : spec_float) :
  sign_clear x -> sign_clear y -> sign_clear (fmul fmt x y).
Proof.
  unfold sign_clear, fmul, SFmul.
  destruct x as [sx|sx| |sx mx ex], y as [sy|sy| |sy my ey];
    cbn [has_sign]; intros Hx Hy; subst; try reflexivity; try exact I.
  apply (binary_round_aux_sign _ _ false).
Qed.

Lemma fdiv_sign (fmt : float_format) (x y : spec_float) :
  sign_clear x -> sign_clear y -> sign_clear (fdiv fmt x y).
Proof.
  unfold sign_clear, fdiv, SFdiv.
  destruct x as [sx|sx| |sx mx ex], y as [sy|sy| |sy my ey];
    cbn [has_sign]; intros Hx Hy; subst; try reflexivity; try exact I.
  destruct (SFdiv_core_binary _ _ _ _ _ _) as [[mz ez] lz].
  apply (binary_round_aux_sign _ _ false).
Qed.

Lemma sign_clear_not_negative (f : spec_float) :
  sign_clear f -> is_negative (PyFloat f) = false.
Proof.
  unfold sign_clear. destruct f as [s|s| |s m e]; cbn; intros H;
    subst; reflexivity.
Qed.

Lemma positive_sign_clear (fmt : float_format) (v : pyval) :
  is_positive v = true -> sign_clear (to_float fmt v).
Proof.
  destruct v as [|z|f]; cbn [is_positive to_float]; intros H.
  - discriminate.
  - apply float_of_int_sign. apply Z.ltb_lt in H. lia.
  - unfold sign_clear. destruct f as [s|s| |s m e]; cbn in H |- *;
      try discriminate; destruct s; try discriminate; reflexivity.
Qed.

Lemma positive_is_number (v : pyval) : is_positive v = true -> is_number v.
Proof.
  destruct v; cbn; intros H; [discriminate|exact I|exact I].
Qed.

(** ** The [voltage] property *)

Lemma min_code_get (r : Z) :
  In r _DATA_RATE -> dict_get _MIN_CODE r = PyInt (minCode r).
Proof.
  intros H. simpl in H.
  destruct H as [<-|[<-|[<-|[<-|[]]]]]; reflexivity.
Qed.

Lemma denominator_positive (r g : Z) :
  In r _DATA_RATE -> In g _GAINS -> 0 < - minCode r * g.
Proof.
  intros Hr Hg. simpl in Hr, Hg.
  destruct Hr as [<-|[<-|[<-|[<-|[]]]]];
    destruct Hg as [<-|[<-|[<-|[<-|[]]]]]; reflexivity.
Qed.

Lemma voltage_absent (fmt : float_format) (resp : frame) (st : state) :
  is_byte (_config (fst st)) ->
  sample_of resp = None ->
  voltage fmt resp st = (Ok (PyInt 0), snd (value resp st)).
Proof.
  intros Hc Hs. unfold voltage, voltage_on, bind. fold (value resp).
  rewrite (value_ok resp st Hc), Hs. reflexivity.
Qed.

Lemma voltage_present (fmt : float_format) (resp : frame) (st : state)
      (raw : Z) :
  valid (fst st) ->
  is_number (_reference_voltage (fst st)) ->
  is_number (_pressure_ratio (fst st)) ->
  sample_of resp = Some raw ->
  voltage fmt resp st =
    (Ok (PyFloat (scaled fmt raw (_rate (fst st)) (_gain (fst st))
                         (_reference_voltage (fst st))
                         (_pressure_ratio (fst st)))),
     snd (value resp st)).
Proof.
  intros (Hc & Hr & Hg) Hv Hp Hs. unfold voltage, voltage_on, bind. fold (value resp).
  rewrite (value_ok resp st Hc), Hs.
  destruct st as [s w]. unfold attr, lift, ret.
  cbn [fst snd _rate _gain _reference_voltage _pressure_ratio with_config]
    in *.
  rewrite (min_code_get _ Hr). cbn [mul].
  pose proof (denominator_positive _ _ Hr Hg) as Hd.
  replace (-1 * minCode (_rate s) * _gain s)
    with (- minCode (_rate s) * _gain s) by ring.
  unfold truediv. cbn [as_float is_zero_val].
  replace (- minCode (_rate s) * _gain s =? 0) with false
    by (symmetry; apply Z.eqb_neq; lia).
  unfold scaled.
  destruct (_reference_voltage s) as [|zv|fv]; [destruct Hv| |];
    destruct (_pressure_ratio s) as [|zp|fp]; try destruct Hp;
    reflexivity.
Qed.

(** C2: whenever the raw read is present, [voltage] is
    (raw / (-minCode[rate] * gain)) * referenceVoltage * pressureRatio with
    minCode the table {128: -2048, 32: -8192, 16: -16384, 8: -32768}; for
    rate 8, gain 1, reference 3.3, ratio 2 and raw 16384 the result is the
    float 3.3 itself, in double and in single precision. *)
Theorem voltage_scaling (fmt : float_format) (resp : frame) (st : state)
        (raw : Z) :
  valid (fst st) ->
  is_number (_reference_voltage (fst st)) ->
  is_number (_pressure_ratio (fst st)) ->
  fst (value resp st) = Ok (Some raw) ->
  fst (voltage fmt resp st) =
    Ok (PyFloat
          (fmul fmt
             (fmul fmt
                (fdiv fmt (float_of_int fmt raw)
                      (float_of_int fmt
                         (- minCode (_rate (fst st)) * _gain (fst st))))
                (to_float fmt (_reference_voltage (fst st))))
             (to_float fmt (_pressure_ratio (fst st)))))
  /\ dict_get _MIN_CODE (_rate (fst st)) = PyInt (minCode (_rate (fst st)))
  /\ map minCode [128; 32; 16; 8] = [-2048; -8192; -16384; -32768]
  /\ fst (voltage binary64 {| cell0 := x40; cell1 := x00; cell2 := x0c |}
                  (fresh binary64))
     = Ok (default_reference_voltage binary64)
  /\ fst (voltage binary32 {| cell0 := x40; cell1 := x00; cell2 := x0c |}
                  (fresh binary32))
     = Ok (default_reference_voltage binary32)
  /\ fst (value {| cell0 := x40; cell1 := x00; cell2 := x0c |}
                (fresh binary64))
     = Ok (Some 16384)
  /\ default_reference_voltage binary64
     = PyFloat (S754_finite false 0x1A666666666666 (-51)).
Proof.
  intros Hvalid Hv Hp Hs.
  pose proof Hvalid as (Hc & Hr & _).
  rewrite (value_ok resp st Hc) in Hs. cbn [fst] in Hs.
  injection Hs as Hs.
  rewrite (voltage_present fmt resp st raw Hvalid Hv Hp Hs).
  split; [reflexivity|]. split; [apply min_code_get; exact Hr|].
  repeat split; vm_compute; reflexivity.
Qed.

(** Rate 8, gain 1, reference 3.3, ratio 2, raw 16384. *)
Lemma voltage_scaling_witness :
  fst (voltage binary64 {| cell0 := x40; cell1 := x00; cell2 := x0c |}
               (fresh binary64))
  = Ok (PyFloat (fmul binary64
                   (fmul binary64
                      (fdiv binary64 (float_of_int binary64 16384)
                            (float_of_int binary64 32768))
                      (to_float binary64 (default_reference_voltage binary64)))
                   (float_of_int binary64 2))).
Proof.
  pose proof (voltage_scaling binary64
                {| cell0 := x40; cell1 := x00; cell2 := x0c |}
                (fresh binary64) 16384) as H.
  destruct H as (H & _).
  - unfold valid, is_byte. simpl. lia.
  - exact I.
  - exact I.
  - reflexivity.
  - exact H.
Defined.

(** A fresh driver in single-shot status with the busy flag up: [voltage]
    hands back the int 0 it started from, not a float. *)
Lemma absent_gives_float_zero_counterexample :
  ~ absent_gives_float_zero binary64
      {| cell0 := x12; cell1 := x34; cell2 := x9c |} (fresh binary64).
Proof.
  unfold absent_gives_float_zero. intros H.
  specialize (H eq_refl). vm_compute in H. discriminate.
Qed.

(** C7: what the code does where the claim says 0.0.  Whenever the raw
    read is absent, [voltage] returns the int 0 of its [voltage = 0], not
    the float that its annotation [-> float] and its ready branch give; the
    int still equals 0.0 under ==, and a ready all-zero sample on a fresh
    driver gives the float 0.0. *)
Theorem voltage_absent_is_int_zero (fmt : float_format) (resp : frame)
        (st : state) :
  fst (value resp st) = Ok None ->
  voltage fmt resp st = (Ok (PyInt 0), snd (value resp st))
  /\ equals_zero (PyInt 0) = true
  /\ fst (voltage binary64 {| cell0 := x00; cell1 := x00; cell2 := x0c |}
                  (fresh binary64))
     = Ok (PyFloat (S754_zero false))
  /\ equals_zero (PyFloat (S754_zero false)) = true.
Proof.
  intros H. split; [|repeat split].
  unfold voltage, voltage_on, bind. fold (value resp).
  destruct (value resp st) as [[v|e] st']; cbn [fst] in H; [|discriminate].
  injection H as ->. reflexivity.
Qed.

Lemma voltage_absent_is_int_zero_witness :
  fst (voltage binary64 {| cell0 := x12; cell1 := x34; cell2 := x9c |}
               (fresh binary64))
  = Ok (PyInt 0).
Proof.
  pose proof (voltage_absent_is_int_zero binary64
                {| cell0 := x12; cell1 := x34; cell2 := x9c |}
                (fresh binary64)) as H.
  destruct H as (H & _); [reflexivity|].
  rewrite H. reflexivity.
Defined.

(** C9: with a positive reference voltage and a positive pressure ratio,
    [voltage] never returns a negative number, whatever the device answers:
    the raw value is the masked pattern in 0..65535, never reread as signed,
    and -minCode[rate] * gain is positive; the answer 0xFFFF, minus one in
    two's complement, comes out as a positive voltage. *)
Theorem voltage_never_negative (fmt : float_format) (resp : frame)
        (st : state) :
  valid (fst st) ->
  is_positive (_reference_voltage (fst st)) = true ->
  is_positive (_pressure_ratio (fst st)) = true ->
  (exists v, fst (voltage fmt resp st) = Ok v /\ is_negative v = false)
  /\ (forall raw, fst (value resp st) = Ok (Some raw) -> 0 <= raw <= 65535)
  /\ 0 < - minCode (_rate (fst st)) * _gain (fst st)
  /\ fst (value {| cell0 := xff; cell1 := xff; cell2 := x0c |}
                (fresh binary64))
     = Ok (Some 65535)
  /\ (exists v,
        fst (voltage binary64 {| cell0 := xff; cell1 := xff; cell2 := x0c |}
                     (fresh binary64)) = Ok v
        /\ is_positive v = true).
Proof.
  intros Hvalid Hv Hp. pose proof Hvalid as (Hc & Hr & Hg).
  split; [|split; [|split; [|split]]].
  - destruct (sample_of resp) as [raw|] eqn:Hs.
    + rewrite (voltage_present fmt resp st raw Hvalid
                 (positive_is_number _ Hv) (positive_is_number _ Hp) Hs).
      eexists. split; [reflexivity|].
      apply sign_clear_not_negative. unfold scaled.
      apply fmul_sign; [apply fmul_sign; [apply fdiv_sign|]|].
      * apply float_of_int_sign.
        unfold sample_of in Hs.
        destruct (sample_ready _); [|discriminate].
        injection Hs as <-. apply combine16_range.
      * apply float_of_int_sign.
        pose proof (denominator_positive _ _ Hr Hg). lia.
      * apply positive_sign_clear. exact Hv.
      * apply positive_sign_clear. exact Hp.
    + rewrite (voltage_absent fmt resp st Hc Hs).
      exists (PyInt 0). split; reflexivity.
  - intros raw H. rewrite (value_ok resp st Hc) in H. cbn [fst] in H.
    unfold sample_of in H. destruct (sample_ready _); [|discriminate].
    injection H as <-. apply combine16_range.
  - apply denominator_positive; assumption.
  - reflexivity.
  - eexists. split; vm_compute; reflexivity.
Qed.

Lemma voltage_never_negative_witness :
  exists v,
    fst (voltage binary32 {| cell0 := x80; cell1 := x00; cell2 := x0c |}
                 (fresh binary32)) = Ok v
    /\ is_negative v = false.
Proof.
  pose proof (voltage_never_negative binary32
                {| cell0 := x80; cell1 := x00; cell2 := x0c |}
                (fresh binary32)) as H.
  destruct H as (H & _).
  - unfold valid, is_byte. simpl. lia.
  - reflexivity.
  - reflexivity.
  - exact H.
Defined.

(** ** Sequences of accesses *)

(** [voltage] leaves the state where its [value] access left it. *)
Lemma voltage_state (fmt : float_format) (resp : frame) (st : state) :
  snd (voltage fmt resp st) = snd (value resp st).
Proof.
  unfold voltage, voltage_on, bind. fold (value resp).
  destruct (value resp st) as [[[raw|]|e] st']; try reflexivity.
  unfold attr, lift, ret. cbn [fst snd].
  destruct (mul fmt (PyInt (-1)) _) as [d1|e]; [|reflexivity].
  destruct (mul fmt d1 _) as [d|e]; [|reflexivity].
  destruct (truediv fmt _ d) as [q|e]; [|reflexivity].
  destruct (mul fmt q _) as [x|e]; [|reflexivity].
  destruct (mul fmt x _) as [y|e]; reflexivity.
Qed.

Lemma fresh_valid (fmt : float_format) : valid (fst (fresh fmt)).
Proof.
  unfold valid, is_byte. simpl. lia.
Qed.

Lemma init_valid (a : Z) (v p : pyval) : valid (__init__ a v p).
Proof.
  unfold valid, is_byte. simpl. lia.
Qed.





(** The write never touches the instance, whether it succeeds or not. *)
Lemma write_config_instance (st : state) :
  fst (snd (write_config st)) = fst st.
Proof.
  unfold write_config, write_config_on, bind, attr, lift, i2c_writeto, emit.
  destruct (to_bytes (_config (fst st)) 1); reflexivity.
Qed.

Lemma value_keeps (resp : frame) (st : state) :
  _rate (fst (snd (value resp st))) = _rate (fst st)
  /\ _gain (fst (snd (value resp st))) = _gain (fst st).
Proof.
  pose proof (write_config_instance st) as W.
  unfold value, value_on, bind. fold write_config.
  destruct (write_config st) as [[u|e] st1]; cbn [fst snd] in W |- *.
  - unfold time_sleep, emit, _read, bind, attr, i2c_readfrom_into_BUFFER,
      buffer, set_config, assign, ret.
    cbn [fst snd _BUFFER _config with_config].
    destruct (_ || _); cbn [fst snd _rate _gain with_config];
      rewrite W; split; reflexivity.
  - rewrite W. split; reflexivity.
Qed.

Lemma mode_setter_keeps (m : Z) (st : state) :
  _rate (fst (snd (mode_setter m st))) = _rate (fst st)
  /\ _gain (fst (snd (mode_setter m st))) = _gain (fst st).
Proof.
  rewrite mode_setter_eq, write_config_instance. split; reflexivity.
Qed.

Lemma rate_setter_eq (r : Z) (st : state) :
  In r _DATA_RATE ->
  rate_setter r st =
    write_config (with_config (with_rate (fst st) r)
                              (with_dr (_config (fst st)) (rate_code r)),
                  snd st).
Proof.
  intros Hr. destruct st as [s w]. unfold rate_setter, rate_setter_on.
  rewrite (proj2 (tuple_contains_In _ _) Hr). cbn [negb].
  unfold bind, set_rate_attr, set_config, assign, attr, lift.
  cbn [fst snd _config with_rate]. rewrite (rate_index r Hr). reflexivity.
Qed.

Lemma gain_setter_eq (g : Z) (st : state) :
  In g _GAINS ->
  gain_setter g st =
    write_config (with_config (with_gain (fst st) g)
                              (with_pga (_config (fst st)) (gain_code g)),
                  snd st).
Proof.
  intros Hg. destruct st as [s w]. unfold gain_setter, gain_setter_on.
  rewrite (proj2 (tuple_contains_In _ _) Hg). cbn [negb].
  unfold bind, set_gain_attr, set_config, assign, attr, lift.
  cbn [fst snd _config with_gain]. rewrite (gain_index g Hg). reflexivity.
Qed.

Lemma rate_setter_stores (r : Z) (st : state) :
  _rate (fst (snd (rate_setter r st)))
  = (if tuple_contains r _DATA_RATE then r else _rate (fst st))
  /\ _gain (fst (snd (rate_setter r st))) = _gain (fst st).
Proof.
  destruct (tuple_contains r _DATA_RATE) eqn:E.
  - apply tuple_contains_In in E.
    rewrite (rate_setter_eq r st E), write_config_instance.
    split; reflexivity.
  - unfold rate_setter, rate_setter_on. rewrite E. split; reflexivity.
Qed.

Lemma gain_setter_stores (g : Z) (st : state) :
  _rate (fst (snd (gain_setter g st))) = _rate (fst st)
  /\ _gain (fst (snd (gain_setter g st)))
     = (if tuple_contains g _GAINS then g else _gain (fst st)).
Proof.
  destruct (tuple_contains g _GAINS) eqn:E.
  - apply tuple_contains_In in E.
    rewrite (gain_setter_eq g st E), write_config_instance.
    split; reflexivity.
  - unfold gain_setter, gain_setter_on. rewrite E. split; reflexivity.
Qed.

(** The state after [m ;; ret v] is the state after [m]. *)
Lemma then_ret_state {A B} (m : M A) (f : A -> B) (st : state) :
  snd ((x <- m ;; ret (f x)) st) = snd (m st).
Proof.
  unfold bind, ret. destruct (m st) as [[x|e] st1]; reflexivity.
Qed.

(** One access, in any state and with any argument, moves the stored rate
    and gain only by an assignment that passes the membership test. *)
Lemma perform_stores (fmt : float_format) (o : op) (st : state) :
  _rate (fst (snd (perform fmt o st))) = last_rate_accepted (_rate (fst st)) [o]
  /\ _gain (fst (snd (perform fmt o st)))
     = last_gain_accepted (_gain (fst st)) [o].
Proof.
  destruct o as [resp|resp| |m| |r| |g];
    cbn [perform last_rate_accepted last_gain_accepted].
  - rewrite then_ret_state. apply value_keeps.
  - rewrite voltage_state. apply value_keeps.
  - split; reflexivity.
  - rewrite (then_ret_state (mode_setter m) (fun _ => PyNone)).
    apply mode_setter_keeps.
  - split; reflexivity.
  - rewrite (then_ret_state (rate_setter r) (fun _ => PyNone)).
    apply rate_setter_stores.
  - split; reflexivity.
  - rewrite (then_ret_state (gain_setter g) (fun _ => PyNone)).
    apply gain_setter_stores.
Qed.

Lemma last_rate_accepted_cons (cur : Z) (o : op) (ops : list op) :
  last_rate_accepted cur (o :: ops)
  = last_rate_accepted (last_rate_accepted cur [o]) ops.
Proof.
  destruct o; reflexivity.
Qed.

Lemma last_gain_accepted_cons (cur : Z) (o : op) (ops : list op) :
  last_gain_accepted cur (o :: ops)
  = last_gain_accepted (last_gain_accepted cur [o]) ops.
Proof.
  destruct o; reflexivity.
Qed.

Lemma run_stores (fmt : float_format) (ops : list op) :
  forall st,
    _rate (fst (snd (run fmt ops st))) = last_rate_accepted (_rate (fst st)) ops
    /\ _gain (fst (snd (run fmt ops st)))
       = last_gain_accepted (_gain (fst st)) ops.
Proof.
  induction ops as [|o ops IH]; intros st.
  - split; reflexivity.
  - destruct (perform_stores fmt o st) as [Hr1 Hg1].
    cbn [run]. destruct (perform fmt o st) as [r st1].
    cbn [fst snd] in Hr1, Hg1.
    destruct (IH st1) as [Hr2 Hg2].
    destruct (run fmt ops st1) as [rs st2]. cbn [fst snd] in *.
    rewrite last_rate_accepted_cons, last_gain_accepted_cons, <- Hr1, <- Hg1.
    split; assumption.
Qed.

(** ** Accesses on a bus that may fail *)


Lemma write_config_on_nacked (st : state) :
  is_byte (_config (fst st)) ->
  write_config_on Nacked st = (Raise OSError, st).
Proof.
  intros Hc. unfold write_config_on, bind, attr, lift, i2c_writeto, raise.
  rewrite (to_bytes_one _ Hc). reflexivity.
Qed.

(** A [value] whose write fails does nothing else; one whose read fails
    has written and slept, and leaves the shadow config as it was. *)
Lemma value_on_nacked (a : answer) (st : state) :
  is_byte (_config (fst st)) ->
  value_on Nacked a st = (Raise OSError, st).
Proof.
  intros Hc. unfold value_on, bind.
  rewrite (write_config_on_nacked st Hc). reflexivity.
Qed.

Lemma value_on_fails (leftover : frame) (st : state) :
  is_byte (_config (fst st)) ->
  value_on Acked (Fails leftover) st =
    (Raise OSError,
     (fst st,
      {| _BUFFER := leftover;
         bus := bus (snd st) ++ [Writeto (_addr (fst st))
                                         [byte_of_Z (_config (fst st))];
                                 Sleep (1 # 10)] |})).
Proof.
  intros Hc. destruct st as [s w]. unfold value_on, bind.
  fold write_config. rewrite (write_config_ok _ Hc).
  unfold time_sleep, emit, _read, bind, attr, i2c_readfrom_into_BUFFER,
    log.
  cbn [fst snd _BUFFER bus _addr].
  rewrite <- !app_assoc. reflexivity.
Qed.


Lemma voltage_on_state (fmt : float_format) (t : transfer) (a : answer)
      (st : state) :
  snd (voltage_on fmt t a st) = snd (value_on t a st).
Proof.
  unfold voltage_on, bind.
  destruct (value_on t a st) as [[[raw|]|e] st']; try reflexivity.
  unfold attr, lift, ret. cbn [fst snd].
  destruct (mul fmt (PyInt (-1)) _) as [d1|e]; [|reflexivity].
  destruct (mul fmt d1 _) as [d|e]; [|reflexivity].
  destruct (truediv fmt _ d) as [q|e]; [|reflexivity].
  destruct (mul fmt q _) as [x|e]; [|reflexivity].
  destruct (mul fmt x _) as [y|e]; reflexivity.
Qed.

Lemma mode_setter_on_eq (t : transfer) (m : Z) (st : state) :
  mode_setter_on t m st =
    write_config_on t (with_config (with_mode (fst st) m)
                                   (with_sc (_config (fst st)) m), snd st).
Proof.
  destruct st as [s w]. reflexivity.
Qed.

Lemma rate_setter_on_eq (t : transfer) (r : Z) (st : state) :
  In r _DATA_RATE ->
  rate_setter_on t r st =
    write_config_on t (with_config (with_rate (fst st) r)
                                   (with_dr (_config (fst st)) (rate_code r)),
                       snd st).
Proof.
  intros Hr. destruct st as [s w]. unfold rate_setter_on.
  rewrite (proj2 (tuple_contains_In _ _) Hr). cbn [negb].
  unfold bind, set_rate_attr, set_config, assign, attr, lift.
  cbn [fst snd _config with_rate]. rewrite (rate_index r Hr). reflexivity.
Qed.

Lemma gain_setter_on_eq (t : transfer) (g : Z) (st : state) :
  In g _GAINS ->
  gain_setter_on t g st =
    write_config_on t (with_config (with_gain (fst st) g)
                                   (with_pga (_config (fst st)) (gain_code g)),
                       snd st).
Proof.
  intros Hg. destruct st as [s w]. unfold gain_setter_on.
  rewrite (proj2 (tuple_contains_In _ _) Hg). cbn [negb].
  unfold bind, set_gain_attr, set_config, assign, attr, lift.
  cbn [fst snd _config with_gain]. rewrite (gain_index g Hg). reflexivity.
Qed.

Lemma rate_setter_on_invalid (t : transfer) (r : Z) (st : state) :
  tuple_contains r _DATA_RATE = false ->
  rate_setter_on t r st = (Raise (ValueError rate_message), st).
Proof.
  intros E. unfold rate_setter_on. rewrite E. reflexivity.
Qed.

Lemma gain_setter_on_invalid (t : transfer) (g : Z) (st : state) :
  tuple_contains g _GAINS = false ->
  gain_setter_on t g st = (Raise (ValueError gain_message), st).
Proof.
  intros E. unfold gain_setter_on. rewrite E. reflexivity.
Qed.









(** ** Further properties of single accesses *)

Lemma byte_of_int_of_byte (b : byte) : byte_of_Z (int_of_byte b) = b.
Proof.
  unfold byte_of_Z. rewrite Z.mod_small by apply int_of_byte_range.
  unfold int_of_byte. rewrite N2Z.id, Byte.of_to_N. reflexivity.
Qed.

(** The write either raises before anything is sent, or sends one byte. *)
Lemma write_config_cases (st : state) :
  write_config st = (Raise OverflowError, st)
  \/ exists b,
       write_config st =
         (Ok tt, (fst st, log (snd st) [Writeto (_addr (fst st)) [b]])).
Proof.
  unfold write_config, write_config_on, bind, attr, lift, i2c_writeto, emit, to_bytes.
  destruct ((_config (fst st) <? 0) || (256 ^ Z.of_nat 1 <=? _config (fst st))).
  - left. reflexivity.
  - right. eexists. reflexivity.
Qed.

(** So does [value]: nothing at all, or the three transfers. *)
Lemma value_cases (resp : frame) (st : state) :
  value resp st = (Raise OverflowError, st)
  \/ exists b,
       value resp st =
         (Ok (sample_of resp),
          (with_config (fst st) (int_of_byte (cell2 resp)),
           {| _BUFFER := resp;
              bus := bus (snd st) ++ [Writeto (_addr (fst st)) [b];
                                      Sleep (1 # 10);
                                      Readfrom_into (_addr (fst st)) 3] |})).
Proof.
  destruct st as [s w]. unfold value, value_on, bind. fold write_config.
  destruct (write_config_cases (s, w)) as [E|[b E]]; rewrite E.
  - left. reflexivity.
  - right. exists b.
    unfold time_sleep, emit, _read, bind, attr, i2c_readfrom_into_BUFFER,
      buffer, set_config, assign, ret, log.
    cbn [fst snd _BUFFER bus cell0 cell1 cell2 _config _addr with_config].
    rewrite ready_test. unfold sample_of, combine16.
    rewrite <- !app_assoc. cbn [app].
    destruct (sample_ready (int_of_byte (cell2 resp))); reflexivity.
Qed.

(** X8: a [voltage] access is one [value] access as far as the device and
    the driver's state are concerned: it leaves exactly the state, buffer
    and bus log that [value] leaves, whatever its arithmetic does, and when
    [value] raises it raises the same exception. *)
Theorem voltage_is_one_value_access (fmt : float_format) (resp : frame)
        (st : state) :
  snd (voltage fmt resp st) = snd (value resp st)
  /\ (forall e, fst (value resp st) = Raise e ->
               fst (voltage fmt resp st) = Raise e).
Proof.
  split; [apply voltage_state|].
  intros e H. unfold voltage, voltage_on, bind. fold (value resp).
  destruct (value resp st) as [[v|e'] st']; cbn [fst] in H.
  - discriminate.
  - injection H as ->. reflexivity.
Qed.

(** After [mode = 16] the shadow config is 0x18C and both accesses raise
    [OverflowError]. *)
Lemma voltage_is_one_value_access_witness :
  let st := snd (mode_setter 16 (fresh binary64)) in
  let resp := {| cell0 := x12; cell1 := x34; cell2 := x0c |} in
  fst (voltage binary64 resp st) = Raise OverflowError.
Proof.
  cbv zeta.
  pose proof (voltage_is_one_value_access binary64
                {| cell0 := x12; cell1 := x34; cell2 := x0c |}
                (snd (mode_setter 16 (fresh binary64)))) as H.
  destruct H as [_ H]. apply H. reflexivity.
Defined.

(** X12: a present raw value determines the two sample bytes of the
    answer: the MSB is raw // 256 and the LSB is raw % 256, so two answers
    with the same raw value carry the same sample. *)
Theorem raw_determines_sample (resp : frame) (st : state) (raw : Z) :
  fst (value resp st) = Ok (Some raw) ->
  byte_of_Z (raw / 256) = cell0 resp
  /\ byte_of_Z (raw mod 256) = cell1 resp
  /\ 0 <= raw <= 65535.
Proof.
  intros H.
  assert (raw = combine16 (int_of_byte (cell0 resp))
                          (int_of_byte (cell1 resp))) as E.
  { destruct (value_cases resp st) as [V|(b & V)];
      rewrite V in H; cbn [fst] in H; [discriminate|].
    unfold sample_of in H.
    destruct (sample_ready _); [|discriminate].
    injection H as <-. reflexivity. }
  pose proof (int_of_byte_range (cell0 resp)) as H0.
  pose proof (int_of_byte_range (cell1 resp)) as H1.
  rewrite (combine16_bytes _ _ H0 H1) in E.
  unfold is_byte in H0, H1.
  assert (raw / 256 = int_of_byte (cell0 resp)) as Ed.
  { subst raw. rewrite Z.div_add_l by lia.
    rewrite Z.div_small by lia. lia. }
  assert (raw mod 256 = int_of_byte (cell1 resp)) as Em.
  { subst raw. rewrite Z.add_comm, Z.mod_add by lia.
    apply Z.mod_small. lia. }
  rewrite Ed, Em, !byte_of_int_of_byte.
  repeat split; lia.
Qed.

Lemma raw_determines_sample_witness :
  byte_of_Z (0x1234 / 256) = x12 /\ byte_of_Z (0x1234 mod 256) = x34.
Proof.
  pose proof (raw_determines_sample
                {| cell0 := x12; cell1 := x34; cell2 := x0c |}
                (fresh binary64) 0x1234) as H.
  destruct H as (H0 & H1 & _); [reflexivity|].
  split; [exact H0|exact H1].
Defined.

(** X13: what [value] returns and leaves in the buffer and in the shadow
    config depends on the device's answer alone: not on the stored mode,
    rate or gain, not on the previous shadow config, not on what the shared
    buffer held.  The stored mode is not updated from the status. *)
Theorem value_ignores_history (resp : frame) (st1 st2 : state) :
  is_byte (_config (fst st1)) ->
  is_byte (_config (fst st2)) ->
  fst (value resp st1) = fst (value resp st2)
  /\ _BUFFER (snd (snd (value resp st1))) = _BUFFER (snd (snd (value resp st2)))
  /\ _config (fst (snd (value resp st1))) = _config (fst (snd (value resp st2)))
  /\ _mode (fst (snd (value resp st1))) = _mode (fst st1).
Proof.
  intros H1 H2. rewrite (value_ok resp st1 H1), (value_ok resp st2 H2).
  repeat split.
Qed.

(** A fresh driver and one switched to single-shot mode with a stale
    buffer: the same answer gives the same result. *)
Lemma value_ignores_history_witness :
  let resp := {| cell0 := x12; cell1 := x34; cell2 := x8c |} in
  fst (value resp (fresh binary64))
  = fst (value resp (snd (mode_setter SINGLE
                            (snd (value {| cell0 := xff; cell1 := xff;
                                           cell2 := x0c |}
                                        (fresh binary64)))))).
Proof.
  cbv zeta.
  pose proof (value_ignores_history
                {| cell0 := x12; cell1 := x34; cell2 := x8c |}
                (fresh binary64)
                (snd (mode_setter SINGLE
                        (snd (value {| cell0 := xff; cell1 := xff;
                                       cell2 := x0c |}
                                    (fresh binary64)))))) as H.
  destruct H as (H & _).
  - unfold is_byte. simpl. lia.
  - vm_compute. split; [discriminate|reflexivity].
  - exact H.
Defined.

(** ** Invariants of whole sessions *)

Lemma last_rate_accepted_in (ops : list op) :
  forall cur, In cur _DATA_RATE -> In (last_rate_accepted cur ops) _DATA_RATE.
Proof.
  induction ops as [|o ops IH]; intros cur H; [exact H|].
  destruct o; cbn [last_rate_accepted]; try (apply IH; exact H).
  destruct (tuple_contains r _DATA_RATE) eqn:E; apply IH; [|exact H].
  apply tuple_contains_In. exact E.
Qed.

Lemma last_gain_accepted_in (ops : list op) :
  forall cur, In cur _GAINS -> In (last_gain_accepted cur ops) _GAINS.
Proof.
  induction ops as [|o ops IH]; intros cur H; [exact H|].
  destruct o; cbn [last_gain_accepted]; try (apply IH; exact H).
  destruct (tuple_contains g _GAINS) eqn:E; apply IH; [|exact H].
  apply tuple_contains_In. exact E.
Qed.

(** X1: whatever the caller does, with whatever arguments and whatever
    exceptions on the way, the stored rate and gain stay entries of their
    tables, as they are after construction; so the [_MIN_CODE.get] of
    [voltage] never misses its key and the divisor
    -minCode[rate] * gain is never zero. *)
Theorem tables_invariant (fmt : float_format) (ops : list op) (st : state) :
  in_tables (fst st) ->
  let s' := fst (snd (run fmt ops st)) in
  in_tables s'
  /\ dict_get _MIN_CODE (_rate s') = PyInt (minCode (_rate s'))
  /\ 0 < - minCode (_rate s') * _gain s'
  /\ (forall a v p, in_tables (__init__ a v p)).
Proof.
  intros [Hr Hg] s'. subst s'.
  destruct (run_stores fmt ops st) as [Er Eg].
  assert (In (_rate (fst (snd (run fmt ops st)))) _DATA_RATE) as Hr'
    by (rewrite Er; apply last_rate_accepted_in; exact Hr).
  assert (In (_gain (fst (snd (run fmt ops st)))) _GAINS) as Hg'
    by (rewrite Eg; apply last_gain_accepted_in; exact Hg).
  split; [split; assumption|].
  split; [apply min_code_get; exact Hr'|].
  split; [apply denominator_positive; assumption|].
  intros a v p. split; simpl; tauto.
Qed.

(** A session with an out-of-range mode, a refused rate and a refused
    gain. *)
Lemma tables_invariant_witness :
  in_tables (fst (snd (run binary64
                         [SetMode 16; SetRate 64; SetRate 16; SetGain 3;
                          GetVoltage {| cell0 := x12; cell1 := x34;
                                        cell2 := x0c |}]
                         (fresh binary64)))).
Proof.
  pose proof (tables_invariant binary64
                [SetMode 16; SetRate 64; SetRate 16; SetGain 3;
                 GetVoltage {| cell0 := x12; cell1 := x34; cell2 := x0c |}]
                (fresh binary64)) as H.
  cbv zeta in H. destruct H as (H & _).
  - split; simpl; tauto.
  - exact H.
Defined.

(** The write and the instance it leaves, with the events it adds. *)
Lemma write_config_events (st : state) :
  exists evs,
    bus (snd (snd (write_config st))) = bus (snd st) ++ evs
    /\ Forall (own_event (_addr (fst st))) evs
    /\ fst (snd (write_config st)) = fst st.
Proof.
  destruct (write_config_cases st) as [E|[b E]]; rewrite E.
  - exists []. cbn [fst snd]. rewrite app_nil_r.
    split; [reflexivity|]. split; [constructor|reflexivity].
  - exists [Writeto (_addr (fst st)) [b]]. cbn [fst snd log bus].
    split; [reflexivity|]. split; [|reflexivity].
    constructor; [|constructor]. split; reflexivity.
Qed.

Lemma value_events (resp : frame) (st : state) :
  exists evs,
    bus (snd (snd (value resp st))) = bus (snd st) ++ evs
    /\ Forall (own_event (_addr (fst st))) evs
    /\ _addr (fst (snd (value resp st))) = _addr (fst st).
Proof.
  destruct (value_cases resp st) as [E|[b E]]; rewrite E.
  - exists []. cbn [fst snd]. rewrite app_nil_r.
    split; [reflexivity|]. split; [constructor|reflexivity].
  - eexists. cbn [fst snd bus _addr with_config].
    split; [reflexivity|]. split; [|reflexivity].
    repeat constructor.
Qed.

Lemma perform_events (fmt : float_format) (o : op) (st : state) :
  exists evs,
    bus (snd (snd (perform fmt o st))) = bus (snd st) ++ evs
    /\ Forall (own_event (_addr (fst st))) evs
    /\ _addr (fst (snd (perform fmt o st))) = _addr (fst st).
Proof.
  assert (exists evs : list event,
            bus (snd st) = bus (snd st) ++ evs
            /\ Forall (own_event (_addr (fst st))) evs
            /\ _addr (fst st) = _addr (fst st)) as Same.
  { exists []. rewrite app_nil_r.
    split; [reflexivity|]. split; [constructor|reflexivity]. }
  destruct o as [resp|resp| |m| |r| |g]; cbn [perform]; try exact Same.
  - rewrite then_ret_state. apply value_events.
  - rewrite voltage_state. apply value_events.
  - rewrite (then_ret_state (mode_setter m) (fun _ => PyNone)).
    rewrite mode_setter_eq.
    destruct (write_config_events
                (with_config (with_mode (fst st) m)
                             (with_sc (_config (fst st)) m), snd st))
      as (evs & B & F & I).
    exists evs. rewrite B, I. cbn [fst snd _addr with_config with_mode] in *.
    split; [reflexivity|]. split; [exact F|reflexivity].
  - rewrite (then_ret_state (rate_setter r) (fun _ => PyNone)).
    destruct (tuple_contains r _DATA_RATE) eqn:E.
    + apply tuple_contains_In in E. rewrite (rate_setter_eq r st E).
      destruct (write_config_events
                  (with_config (with_rate (fst st) r)
                               (with_dr (_config (fst st)) (rate_code r)),
                   snd st))
        as (evs & B & F & I).
      exists evs. rewrite B, I. cbn [fst snd _addr with_config with_rate] in *.
      split; [reflexivity|]. split; [exact F|reflexivity].
    + unfold rate_setter, rate_setter_on. rewrite E. exact Same.
  - rewrite (then_ret_state (gain_setter g) (fun _ => PyNone)).
    destruct (tuple_contains g _GAINS) eqn:E.
    + apply tuple_contains_In in E. rewrite (gain_setter_eq g st E).
      destruct (write_config_events
                  (with_config (with_gain (fst st) g)
                               (with_pga (_config (fst st)) (gain_code g)),
                   snd st))
        as (evs & B & F & I).
      exists evs. rewrite B, I. cbn [fst snd _addr with_config with_gain] in *.
      split; [reflexivity|]. split; [exact F|reflexivity].
    + unfold gain_setter, gain_setter_on. rewrite E. exact Same.
Qed.

(** X9: in any session, with any arguments, the driver only appends to the
    bus log, and only three kinds of transfer: a write of exactly one byte
    to its own address, the sleep of a tenth of a second, and a read of
    exactly three bytes from its own address; the address never changes. *)
Theorem bus_discipline (fmt : float_format) (ops : list op) :
  forall st,
  exists evs,
    bus (snd (snd (run fmt ops st))) = bus (snd st) ++ evs
    /\ Forall (own_event (_addr (fst st))) evs
    /\ _addr (fst (snd (run fmt ops st))) = _addr (fst st).
Proof.
  induction ops as [|o ops IH]; intros st.
  - exists []. cbn [run fst snd]. rewrite app_nil_r.
    split; [reflexivity|]. split; [constructor|reflexivity].
  - destruct (perform_events fmt o st) as (evs1 & B1 & F1 & A1).
    cbn [run]. destruct (perform fmt o st) as [r st1].
    cbn [fst snd] in B1, A1.
    destruct (IH st1) as (evs2 & B2 & F2 & A2).
    destruct (run fmt ops st1) as [rs st2]. cbn [fst snd] in *.
    exists (evs1 ++ evs2). rewrite B2, B1, A2, A1, <- app_assoc.
    split; [reflexivity|]. split; [|reflexivity].
    apply Forall_app. split; [exact F1|].
    rewrite <- A1. exact F2.
Qed.






Lemma in_range_number (fmt : float_format) (v : pyval) :
  in_float_range fmt v -> is_number v.
Proof.
  destruct v; cbn; intros H; [exact H|exact I|exact I].
Qed.

(** What one access returns or raises on a driver used at its types,
    whatever the bus does, and the state it leaves. *)
Lemma perform_on_outcome (fmt : float_format) (b : line) (o : op)
      (st : state) :
  valid (fst st) ->
  in_float_range fmt (_reference_voltage (fst st)) ->
  in_float_range fmt (_pressure_ratio (fst st)) ->
  well_typed o ->
  as_expected ((b, o), fst (perform_on fmt b o st))
  /\ valid (fst (snd (perform_on fmt b o st)))
  /\ _reference_voltage (fst (snd (perform_on fmt b o st)))
     = _reference_voltage (fst st)
  /\ _pressure_ratio (fst (snd (perform_on fmt b o st)))
     = _pressure_ratio (fst st).
Proof.
  intros Hvalid Hv Hp Ht. pose proof Hvalid as (Hc & Hr & Hg).
  pose proof (in_range_number _ _ Hv) as Nv.
  pose proof (in_range_number _ _ Hp) as Np.
  unfold as_expected.
  assert (forall c, is_byte c -> valid (with_config (fst st) c)) as Vc.
  { intros c Hb. split; [exact Hb|split; assumption]. }
  destruct o as [resp|resp| |m| |r| |g];
    cbn [perform_on well_typed expected_error fst snd] in *.
  - destruct b as [[|] [|]]; cbn [on_write on_read answer_of bus_error];
      unfold bind.
    + fold (value resp). rewrite (value_ok resp st Hc). cbn [fst snd ret].
      split; [eexists; reflexivity|].
      split; [apply Vc, int_of_byte_range|split; reflexivity].
    + rewrite (value_on_fails resp st Hc). cbn [fst snd].
      split; [reflexivity|]. split; [exact Hvalid|split; reflexivity].
    + rewrite (value_on_nacked _ st Hc). cbn [fst snd].
      split; [reflexivity|]. split; [exact Hvalid|split; reflexivity].
    + rewrite (value_on_nacked _ st Hc). cbn [fst snd].
      split; [reflexivity|]. split; [exact Hvalid|split; reflexivity].
  - rewrite voltage_on_state.
    destruct b as [[|] [|]]; cbn [on_write on_read answer_of bus_error].
    + fold (value resp). fold (voltage fmt resp).
      rewrite (value_ok resp st Hc). cbn [fst snd].
      split; [|split; [apply Vc, int_of_byte_range|split; reflexivity]].
      destruct (sample_of resp) as [raw|] eqn:Hs.
      * rewrite (voltage_present fmt resp st raw Hvalid Nv Np Hs).
        eexists. reflexivity.
      * rewrite (voltage_absent fmt resp st Hc Hs). eexists. reflexivity.
    + unfold voltage_on, bind. rewrite (value_on_fails resp st Hc).
      cbn [fst snd].
      split; [reflexivity|]. split; [exact Hvalid|split; reflexivity].
    + unfold voltage_on, bind. rewrite (value_on_nacked _ st Hc).
      cbn [fst snd].
      split; [reflexivity|]. split; [exact Hvalid|split; reflexivity].
    + unfold voltage_on, bind. rewrite (value_on_nacked _ st Hc).
      cbn [fst snd].
      split; [reflexivity|]. split; [exact Hvalid|split; reflexivity].
  - split; [eexists; reflexivity|].
    split; [exact Hvalid|split; reflexivity].
  - assert (is_byte (with_sc (_config (fst st)) m)) as Hb.
    { apply with_sc_byte; [exact Hc|].
      unfold CONTINUOUS, SINGLE in Ht. lia. }
    unfold bind. rewrite mode_setter_on_eq.
    destruct b as [[|] rd]; cbn [on_write bus_error].
    + fold write_config. rewrite write_config_ok by exact Hb.
      cbn [fst snd ret _reference_voltage _pressure_ratio with_config
           with_mode].
      split; [eexists; reflexivity|].
      split; [|split; reflexivity].
      split; [exact Hb|split; assumption].
    + rewrite write_config_on_nacked by exact Hb.
      cbn [fst snd _reference_voltage _pressure_ratio with_config with_mode].
      split; [reflexivity|]. split; [|split; reflexivity].
      split; [exact Hb|split; assumption].
  - split; [eexists; reflexivity|].
    split; [exact Hvalid|split; reflexivity].
  - unfold bind. destruct (tuple_contains r _DATA_RATE) eqn:E.
    + pose proof (proj1 (tuple_contains_In _ _) E) as Hin.
      assert (is_byte (with_dr (_config (fst st)) (rate_code r))) as Hb
        by (apply with_dr_byte; [exact Hc|apply rate_code_range]).
      rewrite (rate_setter_on_eq _ r st Hin).
      destruct b as [[|] rd]; cbn [on_write bus_error].
      * fold write_config. rewrite write_config_ok by exact Hb.
        cbn [fst snd ret _reference_voltage _pressure_ratio with_config
             with_rate].
        split; [eexists; reflexivity|].
        split; [|split; reflexivity].
        split; [exact Hb|split; assumption].
      * rewrite write_config_on_nacked by exact Hb.
        cbn [fst snd _reference_voltage _pressure_ratio with_config
             with_rate].
        split; [reflexivity|]. split; [|split; reflexivity].
        split; [exact Hb|split; assumption].
    + rewrite (rate_setter_on_invalid _ r st E). cbn [fst snd].
      split; [reflexivity|]. split; [exact Hvalid|split; reflexivity].
  - split; [eexists; reflexivity|].
    split; [exact Hvalid|split; reflexivity].
  - unfold bind. destruct (tuple_contains g _GAINS) eqn:E.
    + pose proof (proj1 (tuple_contains_In _ _) E) as Hin.
      assert (is_byte (with_pga (_config (fst st)) (gain_code g))) as Hb
        by (apply with_pga_byte; [exact Hc|apply gain_code_range]).
      rewrite (gain_setter_on_eq _ g st Hin).
      destruct b as [[|] rd]; cbn [on_write bus_error].
      * fold write_config. rewrite write_config_ok by exact Hb.
        cbn [fst snd ret _reference_voltage _pressure_ratio with_config
             with_gain].
        split; [eexists; reflexivity|].
        split; [|split; reflexivity].
        split; [exact Hb|split; assumption].
      * rewrite write_config_on_nacked by exact Hb.
        cbn [fst snd _reference_voltage _pressure_ratio with_config
             with_gain].
        split; [reflexivity|]. split; [|split; reflexivity].
        split; [exact Hb|split; assumption].
    + rewrite (gain_setter_on_invalid _ g st E). cbn [fst snd].
      split; [reflexivity|]. split; [exact Hvalid|split; reflexivity].
Qed.

(** X2: the exceptions of a session.  On a driver whose shadow config is a
    byte, whose stored rate and gain are table entries and whose calibration
    constants are floats or ints within float range (as after construction
    with such numbers), a session with mode arguments 0 or 1 raises nothing
    but the two [ValueError]s of the setters and the [OSError] of a failing
    bus: an access raises [ValueError] exactly when it assigns a rate
    outside {128, 32, 16, 8} or a gain outside {1, 2, 4, 8}, raises
    [OSError] exactly when a transfer it makes fails, and returns normally
    otherwise; the driver stays in such a state throughout. *)
Theorem only_value_and_bus_errors (fmt : float_format)
        (l : list (line * op)) :
  forall st,
    valid (fst st) ->
    in_float_range fmt (_reference_voltage (fst st)) ->
    in_float_range fmt (_pressure_ratio (fst st)) ->
    Forall well_typed (map snd l) ->
    Forall as_expected (combine l (fst (run_on fmt l st)))
    /\ List.length (fst (run_on fmt l st)) = List.length l
    /\ valid (fst (snd (run_on fmt l st))).
Proof.
  induction l as [|[b o] l IH]; intros st Hvalid Hv Hp Ht.
  - cbn [run_on fst snd combine List.length].
    split; [constructor|]. split; [reflexivity|exact Hvalid].
  - cbn [map snd] in Ht. inversion Ht as [|o' ops' Ho Hops]; subst.
    destruct (perform_on_outcome fmt b o st Hvalid Hv Hp Ho)
      as (O1 & V1 & Cv & Cp).
    cbn [run_on]. destruct (perform_on fmt b o st) as [r st1].
    cbn [fst snd] in O1, V1, Cv, Cp.
    rewrite <- Cv in Hv. rewrite <- Cp in Hp.
    destruct (IH st1 V1 Hv Hp Hops) as (O2 & L2 & V2).
    destruct (run_on fmt l st1) as [rs st2].
    cbn [fst snd combine List.length] in *.
    split; [constructor; assumption|].
    split; [rewrite L2; reflexivity|exact V2].
Qed.

(** A session on a fresh driver: [rate = 64] is refused, [mode = SINGLE]
    is not acknowledged, a read fails after its write, a last read goes
    through. *)
Lemma only_value_and_bus_errors_witness :
  fst (run_on binary64
         [(clear, SetRate 64);
          ({| on_write := Nacked; on_read := Acked |}, SetMode SINGLE);
          ({| on_write := Acked; on_read := Nacked |},
           GetValue {| cell0 := x00; cell1 := x00; cell2 := x00 |});
          (clear, GetVoltage {| cell0 := x40; cell1 := x00; cell2 := x0c |})]
         (fresh binary64))
  = [Raise (ValueError rate_message); Raise OSError; Raise OSError;
     Ok (default_reference_voltage binary64)].
Proof.
  pose proof (only_value_and_bus_errors binary64
                [(clear, SetRate 64);
                 ({| on_write := Nacked; on_read := Acked |}, SetMode SINGLE);
                 ({| on_write := Acked; on_read := Nacked |},
                  GetValue {| cell0 := x00; cell1 := x00; cell2 := x00 |});
                 (clear,
                  GetVoltage {| cell0 := x40; cell1 := x00; cell2 := x0c |})]
                (fresh binary64)) as H.
  destruct H as (_ & _ & _).
  - apply fresh_valid.
  - exact I.
  - vm_compute. exact I.
  - repeat (apply Forall_cons; [simpl; auto|]). apply Forall_nil.
  - vm_compute. reflexivity.
Defined.

(** The fields of an encoded config read back as what was encoded. *)
Lemma encode_fields (m r g : Z) :
  m = CONTINUOUS \/ m = SINGLE -> In r _DATA_RATE -> In g _GAINS ->
  is_byte (encode_config m r g)
  /\ dr_field (encode_config m r g) = rate_code r
  /\ pga_field (encode_config m r g) = gain_code g
  /\ Z.testbit (encode_config m r g) 4 = (m =? SINGLE)
  /\ Z.testbit (encode_config m r g) 7 = true
  /\ nth (Z.to_nat (dr_field (encode_config m r g))) _DATA_RATE 0 = r
  /\ nth (Z.to_nat (pga_field (encode_config m r g))) _GAINS 0 = g.
Proof.
  intros Hm Hr Hg. simpl in Hr, Hg.
  destruct Hm as [->| ->];
    destruct Hr as [<-|[<-|[<-|[<-|[]]]]];
    destruct Hg as [<-|[<-|[<-|[<-|[]]]]];
    vm_compute; repeat split; congruence.
Qed.

Lemma encode_with_sc (m m' r g : Z) :
  m = CONTINUOUS \/ m = SINGLE -> m' = CONTINUOUS \/ m' = SINGLE ->
  In r _DATA_RATE -> In g _GAINS ->
  with_sc (encode_config m r g) m' = encode_config m' r g.
Proof.
  intros Hm Hm' Hr Hg. simpl in Hr, Hg.
  destruct Hm as [->| ->]; destruct Hm' as [->| ->];
    destruct Hr as [<-|[<-|[<-|[<-|[]]]]];
    destruct Hg as [<-|[<-|[<-|[<-|[]]]]]; reflexivity.
Qed.

Lemma encode_with_dr (m r r' g : Z) :
  m = CONTINUOUS \/ m = SINGLE ->
  In r _DATA_RATE -> In r' _DATA_RATE -> In g _GAINS ->
  with_dr (encode_config m r g) (rate_code r') = encode_config m r' g.
Proof.
  intros Hm Hr Hr' Hg. simpl in Hr, Hr', Hg.
  destruct Hm as [->| ->];
    destruct Hr as [<-|[<-|[<-|[<-|[]]]]];
    destruct Hr' as [<-|[<-|[<-|[<-|[]]]]];
    destruct Hg as [<-|[<-|[<-|[<-|[]]]]]; reflexivity.
Qed.

Lemma encode_with_pga (m r g g' : Z) :
  m = CONTINUOUS \/ m = SINGLE ->
  In r _DATA_RATE -> In g _GAINS -> In g' _GAINS ->
  with_pga (encode_config m r g) (gain_code g') = encode_config m r g'.
Proof.
  intros Hm Hr Hg Hg'. simpl in Hr, Hg, Hg'.
  destruct Hm as [->| ->];
    destruct Hr as [<-|[<-|[<-|[<-|[]]]]];
    destruct Hg as [<-|[<-|[<-|[<-|[]]]]];
    destruct Hg' as [<-|[<-|[<-|[<-|[]]]]]; reflexivity.
Qed.

Lemma in_sync_valid (s : ADS1100) : in_tables s -> in_sync s -> valid s.
Proof.
  intros [Hr Hg] [Hm Hc]. split; [|split; assumption].
  rewrite Hc. apply encode_fields; assumption.
Qed.

(** One access that does not read the device keeps config and attributes
    in step. *)
Lemma perform_sync (fmt : float_format) (o : op) (st : state) :
  in_tables (fst st) -> in_sync (fst st) ->
  well_typed o -> is_read o = false ->
  in_tables (fst (snd (perform fmt o st)))
  /\ in_sync (fst (snd (perform fmt o st))).
Proof.
  intros Htab Hsync Ht Hnr.
  pose proof (in_sync_valid _ Htab Hsync) as (Hc & _).
  destruct Htab as [Hr Hg]. destruct Hsync as [Hm Hs].
  assert (in_tables (fst st) /\ in_sync (fst st)) as Same
    by (split; split; assumption).
  destruct o as [resp|resp| |m| |r| |g];
    cbn [perform well_typed is_read] in *; try discriminate; try exact Same.
  - assert (is_byte (with_sc (_config (fst st)) m)) as Hb.
    { apply with_sc_byte; [exact Hc|].
      unfold CONTINUOUS, SINGLE in Ht. lia. }
    unfold bind. rewrite (mode_setter_ok m st Hb).
    unfold in_tables, in_sync.
    cbn [ret fst snd _mode _rate _gain _config with_config with_mode].
    split; [split; assumption|]. split; [exact Ht|].
    rewrite Hs. apply encode_with_sc; assumption.
  - unfold bind. destruct (tuple_contains r _DATA_RATE) eqn:E.
    + apply tuple_contains_In in E. rewrite (rate_setter_ok r st E Hc).
      unfold in_tables, in_sync.
      cbn [ret fst snd _mode _rate _gain _config with_config with_rate].
      split; [split; assumption|]. split; [exact Hm|].
      rewrite Hs. apply encode_with_dr; assumption.
    + unfold rate_setter, rate_setter_on. rewrite E. exact Same.
  - unfold bind. destruct (tuple_contains g _GAINS) eqn:E.
    + apply tuple_contains_In in E. rewrite (gain_setter_ok g st E Hc).
      unfold in_tables, in_sync.
      cbn [ret fst snd _mode _rate _gain _config with_config with_gain].
      split; [split; assumption|]. split; [exact Hm|].
      rewrite Hs. apply encode_with_pga; assumption.
    + unfold gain_setter, gain_setter_on. rewrite E. exact Same.
Qed.

Lemma run_sync (fmt : float_format) (ops : list op) :
  forall st,
    in_tables (fst st) -> in_sync (fst st) ->
    Forall well_typed ops -> Forall (fun o => is_read o = false) ops ->
    in_tables (fst (snd (run fmt ops st)))
    /\ in_sync (fst (snd (run fmt ops st))).
Proof.
  induction ops as [|o ops IH]; intros st Htab Hsync Ht Hnr.
  - split; assumption.
  - inversion Ht as [|o1 ops1 Ho Hops]; subst.
    inversion Hnr as [|o2 ops2 Hn Hns]; subst.
    destruct (perform_sync fmt o st Htab Hsync Ho Hn) as [T1 S1].
    cbn [run]. destruct (perform fmt o st) as [r st1].
    cbn [fst snd] in T1, S1.
    destruct (IH st1 T1 S1 Hops Hns) as [T2 S2].
    destruct (run fmt ops st1) as [rs st2]. cbn [fst snd] in *.
    split; assumption.
Qed.

(** X3: as long as the device is not read, the shadow config is a function
    of the stored attributes.  A constructed driver has config
    0x80 | (mode << 4) | (index(rate) << 2) | index(gain), and every
    session of getters and setters with mode arguments 0 or 1 keeps it so,
    refused assignments included: bits 3-2 and 1-0 decode through the
    tables to what the rate and gain getters return, bit 4 is the stored
    mode and bit 7 stays set. *)
Theorem config_in_sync (fmt : float_format) (ops : list op) (st : state) :
  in_tables (fst st) ->
  in_sync (fst st) ->
  Forall well_typed ops ->
  Forall (fun o => is_read o = false) ops ->
  let s' := fst (snd (run fmt ops st)) in
  _config s' = encode_config (_mode s') (_rate s') (_gain s')
  /\ nth (Z.to_nat (dr_field (_config s'))) _DATA_RATE 0 = _rate s'
  /\ nth (Z.to_nat (pga_field (_config s'))) _GAINS 0 = _gain s'
  /\ Z.testbit (_config s') 4 = (_mode s' =? SINGLE)
  /\ Z.testbit (_config s') 7 = true
  /\ (forall a v p, in_sync (__init__ a v p)).
Proof.
  intros Htab Hsync Ht Hnr s'.
  destruct (run_sync fmt ops st Htab Hsync Ht Hnr) as [[Hr Hg] [Hm Hs]].
  fold s' in Hr, Hg, Hm, Hs.
  destruct (encode_fields _ _ _ Hm Hr Hg) as (_ & _ & _ & B4 & B7 & Dr & Dg).
  rewrite Hs.
  split; [reflexivity|]. split; [exact Dr|]. split; [exact Dg|].
  split; [exact B4|]. split; [exact B7|].
  intros a v p. split; [left; reflexivity|reflexivity].
Qed.

(** Mode, rate and gain set on a fresh driver, with one refused rate. *)
Lemma config_in_sync_witness :
  _config (fst (snd (run binary64
                       [SetMode SINGLE; SetRate 16; SetRate 64; SetGain 4]
                       (fresh binary64))))
  = encode_config SINGLE 16 4.
Proof.
  pose proof (config_in_sync binary64
                [SetMode SINGLE; SetRate 16; SetRate 64; SetGain 4]
                (fresh binary64)) as H.
  cbv zeta in H. destruct H as (H & _).
  - split; simpl; tauto.
  - split; [left; reflexivity|reflexivity].
  - repeat (apply Forall_cons; [simpl; auto|]). apply Forall_nil.
  - repeat (apply Forall_cons; [reflexivity|]). apply Forall_nil.
  - rewrite H. reflexivity.
Defined.

(** ** How the setters compose *)

Lemma mode_setter_instance (m : Z) (st : state) :
  fst (snd (mode_setter m st))
  = with_config (with_mode (fst st) m) (with_sc (_config (fst st)) m).
Proof.
  rewrite mode_setter_eq, write_config_instance. reflexivity.
Qed.

Lemma rate_setter_instance (r : Z) (st : state) :
  In r _DATA_RATE ->
  fst (snd (rate_setter r st))
  = with_config (with_rate (fst st) r)
                (with_dr (_config (fst st)) (rate_code r)).
Proof.
  intros Hr. rewrite (rate_setter_eq r st Hr), write_config_instance.
  reflexivity.
Qed.

Lemma gain_setter_instance (g : Z) (st : state) :
  In g _GAINS ->
  fst (snd (gain_setter g st))
  = with_config (with_gain (fst st) g)
                (with_pga (_config (fst st)) (gain_code g)).
Proof.
  intros Hg. rewrite (gain_setter_eq g st Hg), write_config_instance.
  reflexivity.
Qed.

(** The three fields do not overlap, and a field written twice holds the
    second code; checked on every byte, code and mode. *)
Lemma fields_algebra (c u u' v v' m m' : Z) :
  is_byte c -> 0 <= u < 4 -> 0 <= u' < 4 -> 0 <= v < 4 -> 0 <= v' < 4 ->
  0 <= m < 2 -> 0 <= m' < 2 ->
  with_pga (with_dr c u) v = with_dr (with_pga c v) u
  /\ with_dr (with_sc c m) u = with_sc (with_dr c u) m
  /\ with_pga (with_sc c m) v = with_sc (with_pga c v) m
  /\ with_dr (with_dr c u) u' = with_dr c u'
  /\ with_pga (with_pga c v) v' = with_pga c v'
  /\ with_sc (with_sc c m) m' = with_sc c m'.
Proof.
  intros Hc Hu Hu' Hv Hv' Hm Hm'.
  pose (codes := [0; 1; 2; 3]). pose (modes := [0; 1]).
  pose (P := fun c =>
    forallb (fun u => forallb (fun v => forallb (fun m =>
      (with_pga (with_dr c u) v =? with_dr (with_pga c v) u)
      && (with_dr (with_sc c m) u =? with_sc (with_dr c u) m)
      && (with_pga (with_sc c m) v =? with_sc (with_pga c v) m)
      && (with_dr (with_dr c v) u =? with_dr c u)
      && (with_pga (with_pga c u) v =? with_pga c v)
      && forallb (fun m' => with_sc (with_sc c m) m' =? with_sc c m') modes)
      modes) codes) codes).
  assert (P c = true) as H
    by (apply byte_forall; [vm_compute; reflexivity|exact Hc]).
  assert (forall x, 0 <= x < 4 -> In x codes) as Icode
    by (intros x Hx; unfold codes; simpl; lia).
  assert (forall x, 0 <= x < 2 -> In x modes) as Imode
    by (intros x Hx; unfold modes; simpl; lia).
  unfold P in H. rewrite forallb_forall in H.
  assert (forall a b n n',
            0 <= a < 4 -> 0 <= b < 4 -> 0 <= n < 2 -> 0 <= n' < 2 ->
            with_pga (with_dr c a) b = with_dr (with_pga c b) a
            /\ with_dr (with_sc c n) a = with_sc (with_dr c a) n
            /\ with_pga (with_sc c n) b = with_sc (with_pga c b) n
            /\ with_dr (with_dr c b) a = with_dr c a
            /\ with_pga (with_pga c a) b = with_pga c b
            /\ with_sc (with_sc c n) n' = with_sc c n') as K.
  { intros a b n n' Ha Hb Hn Hn'.
    pose proof (H a (Icode a Ha)) as H1. rewrite forallb_forall in H1.
    pose proof (H1 b (Icode b Hb)) as H2. rewrite forallb_forall in H2.
    pose proof (H2 n (Imode n Hn)) as H3.
    repeat (apply andb_true_iff in H3; destruct H3 as [H3 ?]).
    match goal with
    | F : forallb _ modes = true |- _ =>
        rewrite forallb_forall in F;
        pose proof (F n' (Imode n' Hn')) as Last
    end.
    repeat match goal with
           | E : (_ =? _) = true |- _ => apply Z.eqb_eq in E
           end.
    repeat split; assumption. }
  destruct (K u v m m' Hu Hv Hm Hm') as (K1 & K2 & K3 & _ & _ & K6).
  destruct (K u' u m m' Hu' Hu Hm Hm') as (_ & _ & _ & K4 & _ & _).
  destruct (K v v' m m' Hv Hv' Hm Hm') as (_ & _ & _ & _ & K5 & _).
  repeat split; assumption.
Qed.

Lemma mode_range (m : Z) : m = CONTINUOUS \/ m = SINGLE -> 0 <= m < 2.
Proof.
  unfold CONTINUOUS, SINGLE. lia.
Qed.

(** X4: the three setters act on disjoint fields of the shadow config and
    on different attributes, so on a one-byte config the driver's
    attributes after assigning a rate and a gain, a mode and a rate, or a
    mode and a gain do not depend on the order of the two assignments. *)
Theorem setters_commute (m r g : Z) (st : state) :
  is_byte (_config (fst st)) ->
  m = CONTINUOUS \/ m = SINGLE -> In r _DATA_RATE -> In g _GAINS ->
  fst (snd (gain_setter g (snd (rate_setter r st))))
  = fst (snd (rate_setter r (snd (gain_setter g st))))
  /\ fst (snd (rate_setter r (snd (mode_setter m st))))
     = fst (snd (mode_setter m (snd (rate_setter r st))))
  /\ fst (snd (gain_setter g (snd (mode_setter m st))))
     = fst (snd (mode_setter m (snd (gain_setter g st)))).
Proof.
  intros Hc Hm Hr Hg.
  destruct (fields_algebra (_config (fst st)) (rate_code r) (rate_code r)
              (gain_code g) (gain_code g) m m Hc
              (rate_code_range r) (rate_code_range r)
              (gain_code_range g) (gain_code_range g)
              (mode_range m Hm) (mode_range m Hm))
    as (K1 & K2 & K3 & _).
  rewrite !(gain_setter_instance g _ Hg), !(rate_setter_instance r _ Hr),
    !mode_setter_instance.
  rewrite !(gain_setter_instance g _ Hg), !(rate_setter_instance r _ Hr),
    ?mode_setter_instance.
  destruct st as [[a rv pr c md rt gn] w].
  unfold with_config, with_mode, with_rate, with_gain.
  cbn [fst _addr _reference_voltage _pressure_ratio _config _mode _rate
       _gain] in *.
  rewrite K1, K2, K3. repeat split.
Qed.

Lemma setters_commute_witness :
  fst (snd (gain_setter 4 (snd (rate_setter 32 (fresh binary64)))))
  = fst (snd (rate_setter 32 (snd (gain_setter 4 (fresh binary64))))).
Proof.
  pose proof (setters_commute SINGLE 32 4 (fresh binary64)) as H.
  destruct H as (H & _).
  - unfold is_byte. simpl. lia.
  - right. reflexivity.
  - simpl. tauto.
  - simpl. tauto.
  - exact H.
Defined.

(** X5: the last assignment wins.  On a one-byte config, assigning a rate
    and then another leaves the driver's attributes exactly as the second
    assignment alone would, and so for gain and for mode; assigning the
    same value twice changes nothing the second time. *)
Theorem last_assignment_wins (st : state) :
  is_byte (_config (fst st)) ->
  (forall r1 r2, In r1 _DATA_RATE -> In r2 _DATA_RATE ->
     fst (snd (rate_setter r2 (snd (rate_setter r1 st))))
     = fst (snd (rate_setter r2 st)))
  /\ (forall g1 g2, In g1 _GAINS -> In g2 _GAINS ->
     fst (snd (gain_setter g2 (snd (gain_setter g1 st))))
     = fst (snd (gain_setter g2 st)))
  /\ (forall m1 m2,
     m1 = CONTINUOUS \/ m1 = SINGLE -> m2 = CONTINUOUS \/ m2 = SINGLE ->
     fst (snd (mode_setter m2 (snd (mode_setter m1 st))))
     = fst (snd (mode_setter m2 st))).
Proof.
  intros Hc. split; [|split].
  - intros r1 r2 H1 H2.
    destruct (fields_algebra (_config (fst st)) (rate_code r1) (rate_code r2)
                0 0 0 0 Hc (rate_code_range r1) (rate_code_range r2))
      as (_ & _ & _ & K & _); try lia.
    rewrite !(rate_setter_instance r2 _ H2), (rate_setter_instance r1 _ H1).
    destruct st as [[a rv pr c md rt gn] w].
    unfold with_config, with_rate.
    cbn [fst _addr _reference_voltage _pressure_ratio _config _mode _rate
         _gain] in *.
    rewrite K. reflexivity.
  - intros g1 g2 H1 H2.
    destruct (fields_algebra (_config (fst st)) 0 0 (gain_code g1)
                (gain_code g2) 0 0 Hc)
      as (_ & _ & _ & _ & K & _);
      try lia; try apply gain_code_range.
    rewrite !(gain_setter_instance g2 _ H2), (gain_setter_instance g1 _ H1).
    destruct st as [[a rv pr c md rt gn] w].
    unfold with_config, with_gain.
    cbn [fst _addr _reference_voltage _pressure_ratio _config _mode _rate
         _gain] in *.
    rewrite K. reflexivity.
  - intros m1 m2 H1 H2.
    destruct (fields_algebra (_config (fst st)) 0 0 0 0 m1 m2 Hc)
      as (_ & _ & _ & _ & _ & K);
      try lia; try (apply mode_range; assumption).
    rewrite !mode_setter_instance.
    destruct st as [[a rv pr c md rt gn] w].
    unfold with_config, with_mode.
    cbn [fst _addr _reference_voltage _pressure_ratio _config _mode _rate
         _gain] in *.
    rewrite K. reflexivity.
Qed.

Lemma last_assignment_wins_witness :
  fst (snd (rate_setter 16 (snd (rate_setter 128 (fresh binary64)))))
  = fst (snd (rate_setter 16 (fresh binary64))).
Proof.
  pose proof (last_assignment_wins (fresh binary64)) as H.
  destruct H as (H & _); [unfold is_byte; simpl; lia|].
  apply H; simpl; tauto.
Defined.

(** ** The status byte in later transfers *)

(** X6: the driver sends back what the device last told it.  After a
    [value] access, the byte that the next [value] access writes to the
    device is the status byte of the previous answer, busy flag included,
    not a config built from the stored mode, rate and gain. *)
Theorem value_echoes_status (resp1 resp2 : frame) (st : state) :
  is_byte (_config (fst st)) ->
  let a := _addr (fst st) in
  bus (snd (snd (value resp2 (snd (value resp1 st)))))
  = bus (snd st)
    ++ [Writeto a [byte_of_Z (_config (fst st))]; Sleep (1 # 10);
        Readfrom_into a 3;
        Writeto a [cell2 resp1]; Sleep (1 # 10); Readfrom_into a 3].
Proof.
  intros Hc a. rewrite (value_ok resp1 st Hc).
  rewrite value_ok
    by (cbn [fst snd _config with_config]; apply int_of_byte_range).
  cbn [fst snd bus]. unfold value_transfers.
  cbn [_addr _config with_config].
  rewrite byte_of_int_of_byte, <- app_assoc. reflexivity.
Qed.

(** A fresh driver is answered with status 0x1C: the next read writes
    0x1C, although mode, rate and gain still encode as 0x8C. *)
Lemma value_echoes_status_witness :
  bus (snd (snd (value {| cell0 := x00; cell1 := x01; cell2 := x0c |}
                       (snd (value {| cell0 := x12; cell1 := x34;
                                      cell2 := x1c |}
                                   (fresh binary64))))))
  = [Writeto 0x48 [x8c]; Sleep (1 # 10); Readfrom_into 0x48 3;
     Writeto 0x48 [x1c]; Sleep (1 # 10); Readfrom_into 0x48 3].
Proof.
  pose proof (value_echoes_status
                {| cell0 := x12; cell1 := x34; cell2 := x1c |}
                {| cell0 := x00; cell1 := x01; cell2 := x0c |}
                (fresh binary64)) as H.
  cbv zeta in H. rewrite H; [reflexivity|].
  unfold is_byte. simpl. lia.
Defined.

Lemma mask_bits (x y mask i : Z) :
  Z.land x (Z.lnot mask) = Z.land y (Z.lnot mask) ->
  Z.testbit mask i = false ->
  Z.testbit x i = Z.testbit y i.
Proof.
  intros E Hm. destruct (Z_lt_le_dec i 0) as [Hneg|Hpos].
  - rewrite !Z.testbit_neg_r by exact Hneg. reflexivity.
  - apply (f_equal (fun z => Z.testbit z i)) in E.
    rewrite !Z.land_spec, Z.lnot_spec, Hm, !andb_true_r in E by exact Hpos.
    exact E.
Qed.

Lemma dr_mask_bits (i : Z) : i <> 2 -> i <> 3 -> Z.testbit _DR_BIT i = false.
Proof.
  intros H2 H3. destruct (Z_lt_le_dec i 0) as [Hneg|Hpos].
  - apply Z.testbit_neg_r. exact Hneg.
  - destruct (Z_lt_le_dec i 4) as [Hlt|Hge].
    + assert (i = 0 \/ i = 1) as [->| ->] by lia; reflexivity.
    + apply Z.bits_above_log2; [unfold _DR_BIT; lia|].
      change (Z.log2 _DR_BIT) with 3. lia.
Qed.

Lemma pga_mask_bits (i : Z) : i <> 0 -> i <> 1 -> Z.testbit _PGA_BIT i = false.
Proof.
  intros H0 H1. destruct (Z_lt_le_dec i 0) as [Hneg|Hpos].
  - apply Z.testbit_neg_r. exact Hneg.
  - apply Z.bits_above_log2; [unfold _PGA_BIT; lia|].
    change (Z.log2 _PGA_BIT) with 1. lia.
Qed.

(** X7: the rate and gain setters are read-modify-write on the shadow
    config.  On a one-byte config an accepted rate changes bits 3-2 only
    and an accepted gain bits 1-0 only; every other bit of the byte sent
    to the device is the bit the shadow config had, so after a read the
    device's own status bits, the busy flag among them, are written back;
    the stored mode and the other of rate and gain are untouched. *)
Theorem rate_gain_setters_frame (st : state) :
  is_byte (_config (fst st)) ->
  (forall r, In r _DATA_RATE ->
     let s' := fst (snd (rate_setter r st)) in
     (forall i, i <> 2 -> i <> 3 ->
        Z.testbit (_config s') i = Z.testbit (_config (fst st)) i)
     /\ bus (snd (snd (rate_setter r st)))
        = bus (snd st) ++ [Writeto (_addr (fst st)) [byte_of_Z (_config s')]]
     /\ _mode s' = _mode (fst st) /\ _gain s' = _gain (fst st))
  /\ (forall g, In g _GAINS ->
     let s' := fst (snd (gain_setter g st)) in
     (forall i, i <> 0 -> i <> 1 ->
        Z.testbit (_config s') i = Z.testbit (_config (fst st)) i)
     /\ bus (snd (snd (gain_setter g st)))
        = bus (snd st) ++ [Writeto (_addr (fst st)) [byte_of_Z (_config s')]]
     /\ _mode s' = _mode (fst st) /\ _rate s' = _rate (fst st)).
Proof.
  intros Hc. split.
  - intros r Hr. cbv zeta. rewrite (rate_setter_ok r st Hr Hc).
    cbn [fst snd _config _mode _gain with_config with_rate log bus].
    split; [|repeat split].
    intros i H2 H3.
    destruct (with_dr_fields _ _ Hc (rate_code_range r)) as [_ E].
    apply (mask_bits _ _ _DR_BIT); [exact E|].
    apply dr_mask_bits; assumption.
  - intros g Hg. cbv zeta. rewrite (gain_setter_ok g st Hg Hc).
    cbn [fst snd _config _mode _rate with_config with_gain log bus].
    split; [|repeat split].
    intros i H0 H1.
    destruct (with_pga_fields _ _ Hc (gain_code_range g)) as [_ E].
    apply (mask_bits _ _ _PGA_BIT); [exact E|].
    apply pga_mask_bits; assumption.
Qed.

(** After an answer with status 0x9C, [rate = 128] sends 0x90: bits 3-2
    cleared, the busy flag and bit 4 as the device reported them. *)
Lemma rate_gain_setters_frame_witness :
  bus (snd (snd (rate_setter 128
                   (snd (value {| cell0 := x12; cell1 := x34; cell2 := x9c |}
                               (fresh binary64))))))
  = [Writeto 0x48 [x8c]; Sleep (1 # 10); Readfrom_into 0x48 3;
     Writeto 0x48 [x90]].
Proof.
  pose proof (rate_gain_setters_frame
                (snd (value {| cell0 := x12; cell1 := x34; cell2 := x9c |}
                            (fresh binary64)))) as H.
  destruct H as (H & _); [vm_compute; split; [discriminate|reflexivity]|].
  destruct (H 128) as (_ & B & _); [simpl; tauto|].
  rewrite B. reflexivity.
Defined.

(** ** A zero sample *)

Lemma zero_quotient (fmt : float_format) (r g : Z) :
  common_format fmt -> In r _DATA_RATE -> In g _GAINS ->
  fdiv fmt (float_of_int fmt 0) (float_of_int fmt (- minCode r * g))
  = S754_zero false.
Proof.
  intros Hf Hr Hg. simpl in Hr, Hg.
  destruct Hf as [->| ->];
    destruct Hr as [<-|[<-|[<-|[<-|[]]]]];
    destruct Hg as [<-|[<-|[<-|[<-|[]]]]]; vm_compute; reflexivity.
Qed.

Lemma finite_positive_number (fmt : float_format) (v : pyval) :
  finite_positive fmt v -> is_number v.
Proof.
  intros (m & e & H). destruct v; [discriminate|exact I|exact I].
Qed.

(** X11: a ready sample of zero gives the float 0.0.  In double and in
    single precision, with rate and gain from their tables and finite
    positive calibration constants, an answer whose two sample bytes are
    zero and whose status is ready makes [voltage] return +0.0 exactly (a
    float, where a not-ready read returns the int 0). *)
Theorem zero_sample_is_float_zero (fmt : float_format) (resp : frame)
        (st : state) :
  common_format fmt ->
  valid (fst st) ->
  finite_positive fmt (_reference_voltage (fst st)) ->
  finite_positive fmt (_pressure_ratio (fst st)) ->
  cell0 resp = x00 -> cell1 resp = x00 ->
  sample_ready (int_of_byte (cell2 resp)) = true ->
  fst (voltage fmt resp st) = Ok (PyFloat (S754_zero false)).
Proof.
  intros Hf Hvalid Hv Hp H0 H1 Hready.
  pose proof Hvalid as (_ & Hr & Hg).
  assert (sample_of resp = Some 0) as Hs.
  { unfold sample_of. rewrite Hready, H0, H1. reflexivity. }
  rewrite (voltage_present fmt resp st 0 Hvalid
             (finite_positive_number _ _ Hv)
             (finite_positive_number _ _ Hp) Hs).
  cbn [fst]. unfold scaled.
  rewrite (zero_quotient fmt _ _ Hf Hr Hg).
  destruct Hv as (mv & ev & ->). destruct Hp as (mp & ep & ->).
  reflexivity.
Qed.

Lemma zero_sample_is_float_zero_witness :
  fst (voltage binary32 {| cell0 := x00; cell1 := x00; cell2 := x0c |}
               (fresh binary32))
  = Ok (PyFloat (S754_zero false)).
Proof.
  apply (zero_sample_is_float_zero binary32
           {| cell0 := x00; cell1 := x00; cell2 := x0c |} (fresh binary32)).
  - right. reflexivity.
  - apply fresh_valid.
  - eexists. eexists. vm_compute. reflexivity.
  - eexists. eexists. vm_compute. reflexivity.
  - reflexivity.
  - reflexivity.
  - reflexivity.
Defined.
